(** * Echo stems plugin: job orchestration layer

    A shallow embedding of [plugins/stems/app.py] and the properties of its
    job store, separation worker and HTTP handlers.

    - The code is embedded as computations over a [World]: the module's
      globals ([DATA_DIR], [separator], [jobs]), the part of the file system
      the application touches, the tasks given to [BackgroundTasks] that
      have not run yet, and a trace of what has been executed.
    - A computation returns a value or raises; an exception keeps the world
      as it was when it was raised.  Exceptions are instances of
      [Exception], which is what [except Exception] catches; signals such
      as [KeyboardInterrupt] are not modelled.
    - Whatever the application calls outside of itself (torchaudio, demucs,
      the file system, [uuid4], the upload) is given by an environment
      record, one per run, and the theorems hold for every environment.
    - Every handler is an [async def] on one event loop.  The only [await]
      of the file is [await file.read()] in [separate_audio], before
      anything is mutated, and the worker [process_separation] has no
      [await] at all: a handler or a worker run is one indivisible step of
      the server, and the states between steps are the states a request can
      observe.
    - Calls to [logger] are left out: [logging] does not raise into its
      caller.
    - [progress] is a binary64 float, as in Python. *)

From Stdlib Require Import Floats ZArith.
From stdpp Require Import gmap strings list pretty.

Open Scope Z_scope.

(* Python rounds a decimal literal to the nearest binary64 value, as the
   float parser here does. *)
Set Warnings "-inexact-float,-clear-no-such-hyp".

(** ** Paths *)

(** A path is the string [str] gives of it.  [pathlib]'s [/]: an absolute
    right operand replaces the left one, and a relative one is appended after
    a slash.  [pathlib] also normalises the result (it drops empty and [.]
    components and a slash at the end), which the strings here do not: the
    two agree when the left operand is a [normal_path] and the right one a
    [component], or several of them for a file name that holds a dot. *)
Definition path_join (p q : string) : string :=
  if String.prefix "/" q then q else p +:+ "/" +:+ q.

Notation "p </> q" := (path_join p q) (at level 40, left associativity).

(** A name without a slash: joined to a directory, it names an entry of
    that directory. *)
Fixpoint slash_free (s : string) : bool :=
  match s with
  | EmptyString => true
  | String c s => bool_decide (String c EmptyString ≠ "/") && slash_free s
  end.

(** The name of one entry of a directory, as the strings of [uuid4] are. *)
Definition component (s : string) : bool :=
  slash_free s && bool_decide (s ≠ EmptyString ∧ s ≠ "." ∧ s ≠ "..").

(** The string of the absolute path with the components [parts]. *)
Definition absolute (parts : list string) : string :=
  foldr (λ c s, "/" +:+ c +:+ s) EmptyString parts.

(** The strings of the absolute paths other than the root that go through
    no [..], such as the default [/app/data] of [DATA_DIR]. *)
Definition normal_path (p : string) : Prop :=
  ∃ parts, parts ≠ [] ∧ Forall component parts ∧ p = absolute parts.

(** ** Data model *)

(** A tensor of shape [channels, time]. *)
Definition Tensor : Type := list (list float).

(** The attributes of the Demucs model the application reads. *)
Record Model := mkModel {
  samplerate : Z;
  sources : list string
}.

(** [class JobStatus(BaseModel)] *)
Record JobStatus := mkJobStatus {
  job_id : string;
  status : string;
  progress : option float;
  error : option string;
  stems : option (gmap string string)
}.

Definition with_status (s : string) (j : JobStatus) : JobStatus :=
  mkJobStatus (job_id j) s (progress j) (error j) (stems j).
Definition with_progress (p : float) (j : JobStatus) : JobStatus :=
  mkJobStatus (job_id j) (status j) (Some p) (error j) (stems j).
Definition with_error (e : string) (j : JobStatus) : JobStatus :=
  mkJobStatus (job_id j) (status j) (progress j) (Some e) (stems j).
Definition with_stems (m : gmap string string) (j : JobStatus) : JobStatus :=
  mkJobStatus (job_id j) (status j) (progress j) (error j) (Some m).

(** Instances of Python's [Exception]: [HTTPException] is told apart because
    FastAPI turns it into a response; any other one keeps its class name and
    its [str(e)].  Starlette prints an [HTTPException] as its status code, a
    colon and its detail. *)
Inductive exn :=
| Exception (cls : string) (msg : string)
| HTTPException (status_code : Z) (detail : string).

Definition str (e : exn) : string :=
  match e with
  | Exception _ msg => msg
  | HTTPException status_code detail => pretty status_code +:+ ": " +:+ detail
  end.

Definition RuntimeError (msg : string) : exn := Exception "RuntimeError" msg.
Definition KeyError (key : string) : exn := Exception "KeyError" ("'" +:+ key +:+ "'").
Definition IndexError (msg : string) : exn := Exception "IndexError" msg.

(** What a call gives back: a value, or a raised exception. *)
Inductive outcome (A : Type) :=
| Ret (a : A)
| Raise (e : exn).
Arguments Ret {A} a.
Arguments Raise {A} e.

(** The part of the file system the application touches: which files and
    which directories exist, each under the string of its path.  The
    properties that follow a file from its making to its removal take these
    strings to be [normal_path]s, so that two strings are two entries and the
    entries below a directory are those that [under] tells. *)
Record FS := mkFS {
  files : gset string;
  dirs : gset string
}.

Definition exists_ (p : string) (f : FS) : bool :=
  bool_decide (p ∈ files f ∨ p ∈ dirs f).
Definition add_file (p : string) (f : FS) : FS := mkFS ({[p]} ∪ files f) (dirs f).
Definition remove_file (p : string) (f : FS) : FS := mkFS (files f ∖ {[p]}) (dirs f).
Definition add_dir (p : string) (f : FS) : FS := mkFS (files f) ({[p]} ∪ dirs f).

(** [p] is below the directory [d]. *)
Definition under (d p : string) : bool := String.prefix (d +:+ "/") p.
(** [shutil.rmtree(d)] when it returns: [d] and what is below it are gone. *)
Definition remove_tree (d : string) (f : FS) : FS :=
  mkFS (filter (λ p, under d p = false) (files f))
       (filter (λ p, under d p = false) (dirs f ∖ {[d]})).

(** A call registered with [background_tasks.add_task]. *)
Record Task := mkTask {
  task_job_id : string;
  task_input_path : string;
  task_output_dir : string
}.

(** The steps of an execution, in order: assignments to the job store, calls
    to the outside, and the [raise] statements of the application itself. *)
Inductive event :=
| EvUuid4 (id : string)
| EvRead (filename : string)
| EvOpen (path : string)
| EvWrite (path : string)
| EvJobsInsert (id : string)
| EvJobsDel (id : string)
| EvAddTask (t : Task)
| EvSetStatus (id : string) (s : string)
| EvSetProgress (id : string) (p : float)
| EvSetError (id : string) (msg : string)
| EvSetStems (id : string) (m : gmap string string)
| EvImport
| EvLoad (path : string)
| EvResample (orig_freq new_freq : Z)
| EvToDevice
| EvApplyModel (waveform : Tensor)
| EvMkdir (path : string)
| EvSave (path : string)
| EvUnlink (path : string)
| EvRmtree (path : string)
| EvGetModel
| EvModelTo
| EvModelEval
| EvRaise (e : exn).

(** The module's globals, the file system, the tasks waiting to run and the
    execution so far. *)
Record World := mkWorld {
  DATA_DIR : string;
  separator : option Model;
  jobs : gmap string JobStatus;
  fs : FS;
  background_tasks : list Task;
  trace : list event
}.

Definition set_jobs (m : gmap string JobStatus) (w : World) : World :=
  mkWorld (DATA_DIR w) (separator w) m (fs w) (background_tasks w) (trace w).
Definition set_fs (f : FS) (w : World) : World :=
  mkWorld (DATA_DIR w) (separator w) (jobs w) f (background_tasks w) (trace w).
Definition set_background_tasks (l : list Task) (w : World) : World :=
  mkWorld (DATA_DIR w) (separator w) (jobs w) (fs w) l (trace w).
Definition set_separator (m : option Model) (w : World) : World :=
  mkWorld (DATA_DIR w) m (jobs w) (fs w) (background_tasks w) (trace w).
Definition log_event (ev : event) (w : World) : World :=
  mkWorld (DATA_DIR w) (separator w) (jobs w) (fs w) (background_tasks w)
          (trace w ++ [ev]).

(** ** Computations: state, and exceptions that keep the state *)

Definition M (A : Type) : Type := World → outcome A * World.

Definition ret {A} (a : A) : M A := λ w, (Ret a, w).

Definition bind {A B} (m : M A) (k : A → M B) : M B :=
  λ w, match m w with
       | (Ret a, w') => k a w'
       | (Raise e, w') => (Raise e, w')
       end.

Global Instance M_ret : MRet M := @ret.
Global Instance M_bind : MBind M := λ A B k m, bind m k.

(** An exception of the runtime or of a callee. *)
Definition throw {A} (e : exn) : M A := λ w, (Raise e, w).

(** A [raise] statement of the application. *)
Definition raise_ {A} (e : exn) : M A := λ w, (Raise e, log_event (EvRaise e) w).

(** [try: body except Exception as e: handler(e)] *)
Definition try_except {A} (body : M A) (handler : exn → M A) : M A :=
  λ w, match body w with
       | (Ret a, w') => (Ret a, w')
       | (Raise e, w') => handler e w'
       end.

Definition get {A} (f : World → A) : M A := λ w, (Ret (f w), w).

(** A call to the outside: it is logged, then it raises or takes effect.
    A call that raises is taken to leave the files as they were. *)
Definition ext {A} (ev : event) (r : outcome A) (effect : FS → FS) : M A :=
  λ w, match r with
       | Ret a => (Ret a, set_fs (effect (fs w)) (log_event ev w))
       | Raise e => (Raise e, log_event ev w)
       end.

(** [jobs[id].attr = v]: the subscript raises [KeyError] on an unknown id. *)
Definition setattr_job (id : string) (ev : event) (f : JobStatus → JobStatus) : M unit :=
  λ w, match jobs w !! id with
       | Some j => (Ret tt, log_event ev (set_jobs (<[id := f j]> (jobs w)) w))
       | None => (Raise (KeyError id), w)
       end.

Definition set_status (id s : string) : M unit :=
  setattr_job id (EvSetStatus id s) (with_status s).
Definition set_progress (id : string) (p : float) : M unit :=
  setattr_job id (EvSetProgress id p) (with_progress p).
Definition set_error (id msg : string) : M unit :=
  setattr_job id (EvSetError id msg) (with_error msg).
Definition set_stems (id : string) (m : gmap string string) : M unit :=
  setattr_job id (EvSetStems id m) (with_stems m).

(** ** The separation worker *)

(** What the outside gives one run of the worker. *)
Record WorkerEnv := mkWorkerEnv {
  (* [from demucs.apply import apply_model], [from demucs.audio import save_audio] *)
  import_demucs : outcome unit;
  (* [torchaudio.load(path)]: the waveform [channels, time] and its sample rate *)
  torchaudio_load : string → outcome (Tensor * Z);
  (* [torchaudio.transforms.Resample(orig, new)] works along the time axis
     of each channel, when it does not raise *)
  Resample_kernel : Z → Z → list float → list float;
  Resample_raises : option exn;
  (* [waveform.unsqueeze(0).to(DEVICE)] *)
  to_device : outcome unit;
  (* [apply_model(separator, waveform, ...)]: [sources[0]], one tensor per stem *)
  apply_model : Model → Tensor → outcome (list Tensor);
  (* [output_dir.mkdir(parents=True, exist_ok=True)] *)
  mkdir : string → outcome unit;
  (* [torchaudio.save(path, audio, sample_rate)] *)
  torchaudio_save : string → Tensor → Z → outcome unit;
  (* [input_path.unlink(missing_ok=True)] *)
  unlink : string → outcome unit
}.

Definition Resample (env : WorkerEnv) (orig_freq new_freq : Z) (waveform : Tensor)
  : outcome Tensor :=
  match Resample_raises env with
  | Some e => Raise e
  | None => Ret (Resample_kernel env orig_freq new_freq <$> waveform)
  end.

(** [waveform.repeat(n, 1)]: the tensor tiled [n] times along its first axis. *)
Definition tensor_repeat (n : nat) (waveform : Tensor) : Tensor :=
  mjoin (replicate n waveform).

(** Lines 142-146, "Ensure stereo". *)
Definition ensure_stereo (waveform : Tensor) : Tensor :=
  if bool_decide (length waveform = 1%nat) then tensor_repeat 2 waveform
  else if bool_decide (2 < length waveform)%nat then take 2 waveform
  else waveform.

(** Lines 136-146: resampling to the model's rate, then the channels. *)
Definition normalize (env : WorkerEnv) (separator : Model)
    (waveform : Tensor) (sample_rate : Z) : M Tensor :=
  waveform ← (if bool_decide (sample_rate ≠ samplerate separator)
              then ext (EvResample sample_rate (samplerate separator))
                       (Resample env sample_rate (samplerate separator) waveform) id
              else mret waveform);
  mret (ensure_stereo waveform).

(** [sources[0, i]], with torch's message when there is no such tensor. *)
Definition index_source (separated : list Tensor) (i : nat) : M Tensor :=
  match separated !! i with
  | Some t => mret t
  | None => throw (IndexError ("index " +:+ pretty i
                               +:+ " is out of bounds for dimension 1 with size "
                               +:+ pretty (length separated)))
  end.

(** Lines 165-170: the loop over [enumerate(separator.sources)], from index
    [i] on, filling the local dictionary [stems]; [separated] is the local
    variable [sources] of the source, the tensors [apply_model] returned. *)
Fixpoint save_stems (env : WorkerEnv) (separator : Model) (output_dir : string)
    (separated : list Tensor) (i : nat) (names : list string)
    (stems : gmap string string) : M (gmap string string) :=
  match names with
  | [] => mret stems
  | stem_name :: names =>
      let stem_path := output_dir </> (stem_name +:+ ".wav") in
      stem_audio ← index_source separated i;
      ext (EvSave stem_path)
          (torchaudio_save env stem_path stem_audio (samplerate separator))
          (add_file stem_path) ;;
      save_stems env separator output_dir separated (S i) names
                 (<[stem_name := stem_path]> stems)
  end.

(** The body of the [try] of [process_separation], lines 122-179.  The
    directories [DATA_DIR] and [DATA_DIR/output] are made when the module is
    imported (lines 33-35): of [output_dir.mkdir(parents=True)] the making of
    [output_dir] itself is recorded. *)
Definition separation_body (env : WorkerEnv) (job_id input_path output_dir : string)
  : M unit :=
  set_status job_id "processing" ;;
  set_progress job_id 0.0 ;;
  sep ← get separator;
  match sep with
  | None => raise_ (RuntimeError "Model not loaded")
  | Some separator =>
      ext EvImport (import_demucs env) id ;;
      '(waveform, sample_rate) ← ext (EvLoad input_path)
                                     (torchaudio_load env input_path) id;
      waveform ← normalize env separator waveform sample_rate;
      ext EvToDevice (to_device env) id ;;
      set_progress job_id 0.2 ;;
      separated ← ext (EvApplyModel waveform) (apply_model env separator waveform) id;
      set_progress job_id 0.8 ;;
      ext (EvMkdir output_dir) (mkdir env output_dir) (add_dir output_dir) ;;
      stems ← save_stems env separator output_dir separated 0 (sources separator) ∅;
      ext (EvUnlink input_path) (unlink env input_path) (remove_file input_path) ;;
      set_status job_id "completed" ;;
      set_progress job_id 1.0 ;;
      set_stems job_id stems
  end.

(** [async def process_separation(job_id, input_path, output_dir)] *)
Definition process_separation (env : WorkerEnv) (job_id input_path output_dir : string)
  : M unit :=
  try_except
    (separation_body env job_id input_path output_dir)
    (λ e, set_status job_id "failed" ;;
          set_error job_id (str e)).

(** ** The HTTP handlers *)

(** What a handler returns when it does not raise. *)
Inductive response :=
| JobCreated (job_id status : string)
| JobRecord (job : JobStatus)
| FileResponse (path media_type filename : string)
| JobDeleted (status job_id : string).

(** The uploaded file of a request. *)
Record UploadFile := mkUploadFile {
  filename : string;
  read : outcome (list Byte.byte)
}.

(** What the outside gives one call of [separate_audio]. *)
Record SubmitEnv := mkSubmitEnv {
  (* [str(uuid.uuid4())] *)
  uuid4 : string;
  (* [open(path, "wb")] creates the file when it does not raise *)
  open_wb : string → outcome unit;
  (* [f.write(content)] *)
  write : string → list Byte.byte → outcome unit
}.

(** [jobs[id] = job] *)
Definition jobs_insert (id : string) (job : JobStatus) : M unit :=
  λ w, (Ret tt, log_event (EvJobsInsert id) (set_jobs (<[id := job]> (jobs w)) w)).

(** [del jobs[id]] *)
Definition jobs_del (id : string) : M unit :=
  λ w, match jobs w !! id with
       | Some _ => (Ret tt, log_event (EvJobsDel id) (set_jobs (delete id (jobs w)) w))
       | None => (Raise (KeyError id), w)
       end.

(** [background_tasks.add_task(process_separation, ...)] *)
Definition add_task (t : Task) : M unit :=
  λ w, (Ret tt, log_event (EvAddTask t)
                  (set_background_tasks (background_tasks w ++ [t]) w)).

(** [POST /separate] *)
Definition separate_audio (env : SubmitEnv) (file : UploadFile) : M response :=
  sep ← get separator;
  match sep with
  | None => raise_ (HTTPException 503 "Model not loaded")
  | Some _ =>
      job_id ← ext (EvUuid4 (uuid4 env)) (Ret (uuid4 env)) id;
      data_dir ← get DATA_DIR;
      let input_dir := data_dir </> "input" in
      let input_path := input_dir </> (job_id +:+ "_" +:+ filename file) in
      try_except
        (content ← ext (EvRead (filename file)) (read file) id;
         ext (EvOpen input_path) (open_wb env input_path) (add_file input_path) ;;
         ext (EvWrite input_path) (write env input_path content) id)
        (λ e, raise_ (HTTPException 500 ("Failed to save file: " +:+ str e))) ;;
      let output_dir := data_dir </> "output" </> job_id in
      jobs_insert job_id (mkJobStatus job_id "pending" (Some 0.0%float) None None) ;;
      add_task (mkTask job_id input_path output_dir) ;;
      mret (JobCreated job_id "pending")
  end.

(** [GET /job/{job_id}] *)
Definition get_job_status (job_id : string) : M response :=
  js ← get jobs;
  match js !! job_id with
  | None => raise_ (HTTPException 404 "Job not found")
  | Some job => mret (JobRecord job)
  end.

(** [not job.stems]: [None] and the empty dictionary are false. *)
Definition not_stems (stems : option (gmap string string)) : bool :=
  match stems with
  | None => true
  | Some m => bool_decide (m = ∅)
  end.

(** [GET /job/{job_id}/stem/{stem_name}] *)
Definition download_stem (job_id stem_name : string) : M response :=
  js ← get jobs;
  match js !! job_id with
  | None => raise_ (HTTPException 404 "Job not found")
  | Some job =>
      if bool_decide (status job ≠ "completed") then
        raise_ (HTTPException 400 ("Job not completed: " +:+ status job))
      else if not_stems (stems job)
              || bool_decide (stems job ≫= (.!! stem_name) = None) then
        raise_ (HTTPException 404 ("Stem '" +:+ stem_name +:+ "' not found"))
      else
        match stems job ≫= (.!! stem_name) with
        | None => throw (KeyError stem_name)
        | Some stem_path =>
            f ← get fs;
            if negb (exists_ stem_path f) then
              raise_ (HTTPException 404 "Stem file not found")
            else
              mret (FileResponse stem_path "audio/wav" (stem_name +:+ ".wav"))
        end
  end.

(** What the outside gives one call of [delete_job]. *)
Record DeleteEnv := mkDeleteEnv {
  (* [shutil.rmtree(path)] *)
  rmtree : string → outcome unit
}.

(** [DELETE /job/{job_id}] *)
Definition delete_job (env : DeleteEnv) (job_id : string) : M response :=
  js ← get jobs;
  match js !! job_id with
  | None => raise_ (HTTPException 404 "Job not found")
  | Some job =>
      data_dir ← get DATA_DIR;
      let output_dir := data_dir </> "output" </> job_id in
      f ← get fs;
      (if exists_ output_dir f then
         ext (EvRmtree output_dir) (rmtree env output_dir) (remove_tree output_dir)
       else mret tt) ;;
      jobs_del job_id ;;
      mret (JobDeleted "deleted" job_id)
  end.

(** ** The server *)

(** What the outside gives the startup. *)
Record StartupEnv := mkStartupEnv {
  (* [get_model(MODEL_NAME)] *)
  get_model : outcome Model;
  (* [separator.to(DEVICE)] *)
  model_to : outcome unit;
  (* [separator.eval()] *)
  model_eval : outcome unit
}.

(** [lifespan], up to its [yield]: the only assignment to [separator]. *)
Definition lifespan (env : StartupEnv) : M unit :=
  try_except
    (m ← ext EvGetModel (get_model env) id;
     (λ w, (Ret tt, set_separator (Some m) w)) ;;
     ext EvModelTo (model_to env) id ;;
     ext EvModelEval (model_eval env) id)
    (λ e, mret tt).

(** The module once imported: the three directories made, no model, no job. *)
Definition module_init (data_dir : string) (f : FS) : World :=
  mkWorld data_dir None ∅
          (add_dir (data_dir </> "output")
             (add_dir (data_dir </> "input") (add_dir data_dir f)))
          [] [].

(** The server when it starts to take requests. *)
Definition boot (data_dir : string) (f : FS) (env : StartupEnv) : World :=
  (lifespan env (module_init data_dir f)).2.

(** The run of a dispatched task. *)
Definition run_task (env : WorkerEnv) (t : Task) : M unit :=
  process_separation env (task_job_id t) (task_input_path t) (task_output_dir t).

(** One step of the server: a request handled, a dispatched task run, or
    the file system changed from outside.  [uuid4] does not give an
    identifier it gave before. *)
Inductive step : World → World → Prop :=
| step_separate_audio env file w :
    EvUuid4 (uuid4 env) ∉ trace w →
    step w (separate_audio env file w).2
| step_get_job_status job_id w :
    step w (get_job_status job_id w).2
| step_download_stem job_id stem_name w :
    step w (download_stem job_id stem_name w).2
| step_delete_job env job_id w :
    step w (delete_job env job_id w).2
| step_run_task env t l1 l2 w :
    background_tasks w = l1 ++ t :: l2 →
    step w (run_task env t (set_background_tasks (l1 ++ l2) w)).2
| step_outside f w :
    step w (set_fs f w).

Definition reachable (w : World) : Prop :=
  ∃ data_dir f env, rtc step (boot data_dir f env) w.

(** ** The informational endpoints *)

(** The constants of the module that are fixed when it is imported and are
    not in [World]: [MODEL_NAME] from the environment, [DEVICE] from torch. *)
Record Config := mkConfig {
  MODEL_NAME : string;
  DEVICE : string
}.

(** The dictionary [health_check] returns. *)
Record Health := mkHealth {
  health_status : string;
  health_model : string;
  health_device : string;
  model_loaded : bool
}.

(** [GET /health] *)
Definition health_check (cfg : Config) : M Health :=
  sep ← get separator;
  mret (mkHealth "healthy" (MODEL_NAME cfg) (DEVICE cfg) (bool_decide (sep ≠ None))).

(** The dictionary [plugin_info] returns. *)
Record Info := mkInfo {
  info_name : string;
  info_version : string;
  info_description : string;
  info_model : string;
  info_device : string;
  supported_stems : list string;
  supported_formats : list string
}.

(** [GET /info] *)
Definition plugin_info (cfg : Config) : M Info :=
  mret (mkInfo "stems" "1.0.0" "Audio stem separation using Demucs"
          (MODEL_NAME cfg) (DEVICE cfg)
          ["vocals"; "drums"; "bass"; "other"]
          ["wav"; "mp3"; "flac"; "ogg"]).

(** * Predicates used in the proofs *)

(** [wp m Q E w]: run from [w], [m] returns a value and a world in [Q], or
    raises an exception with a world in [E]. *)
Definition wp {A} (m : M A) (Q : A → World → Prop) (E : exn → World → Prop)
    (w : World) : Prop :=
  match m w with
  | (Ret a, w') => Q a w'
  | (Raise e, w') => E e w'
  end.



(** Nothing but the job store, the file system and the trace has changed. *)
Definition frame (w w' : World) : Prop :=
  DATA_DIR w' = DATA_DIR w ∧ separator w' = separator w
  ∧ background_tasks w' = background_tasks w.

(** The path of a stem's file, as line 166 builds it. *)
Definition stem_file (output_dir stem_name : string) : string :=
  output_dir </> (stem_name +:+ ".wav").

(** The dictionary the loop has filled after the stems [names]. *)
Definition recorded_stems (output_dir : string) (names : list string)
    (acc : gmap string string) : gmap string string :=
  foldl (λ m n, <[n := stem_file output_dir n]> m) acc names.

(** The world after the files of the stems [names] are saved. *)
Definition saved (output_dir : string) (names : list string) (w : World) : World :=
  foldl (λ w n, set_fs (add_file (stem_file output_dir n) (fs w))
                       (log_event (EvSave (stem_file output_dir n)) w))
        w names.

(** Events that are neither a [raise] of the application nor the removal of
    a file. *)
Definition quiet (ev : event) : Prop :=
  match ev with
  | EvRaise _ | EvUnlink _ => False
  | _ => True
  end.

(** Events that are not a [raise] of the application. *)
Definition no_raise (ev : event) : Prop :=
  match ev with
  | EvRaise _ => False
  | _ => True
  end.

(** The saving of a stem and the removal of the input file. *)
Definition silent (ev : event) : Prop :=
  match ev with
  | EvSave _ | EvUnlink _ => True
  | _ => False
  end.

(** The values assigned to a progress attribute along some events, in
    order. *)
Definition progress_writes (evs : list event) : list float :=
  omap (λ ev, match ev with EvSetProgress _ p => Some p | _ => None end) evs.

(** How the body of the [try] leaves the world when it raises: the record is
    still "processing", at one of the first three checkpoints, and the file
    system has only gained files, none before the checkpoint 0.8. *)
Definition body_raised (id : string) (j : JobStatus) (w w' : World) : Prop :=
  frame w w'
  ∧ (∃ p, (p = 0.0 ∨ p = 0.2 ∨ p = 0.8)%float
        ∧ jobs w' = <[id := mkJobStatus (job_id j) "processing"
                                  (Some p) (error j) (stems j)]> (jobs w)
        ∧ (p ≠ 0.8%float → fs w' = fs w))
  ∧ files (fs w) ⊆ files (fs w')
  ∧ (∃ evs, trace w' = trace w ++ evs
          ∧ (separator w ≠ None → Forall no_raise evs)
          ∧ progress_writes evs `prefix_of` [0.0; 0.2; 0.8]%float).

(** How the body of the [try] leaves the world when it returns. *)
Definition body_returned (id input_path output_dir : string)
    (j : JobStatus) (w w' : World) : Prop :=
  frame w w'
  ∧ ∃ sep, separator w = Some sep
    ∧ let m := recorded_stems output_dir (sources sep) ∅ in
      jobs w' = <[id := mkJobStatus (job_id j) "completed"
                              (Some 1.0%float) (error j) (Some m)]> (jobs w)
      ∧ files (fs w') = (files (fs w)
                         ∪ list_to_set (stem_file output_dir <$> sources sep))
                        ∖ {[input_path]}
      ∧ dirs (fs w') = {[output_dir]} ∪ dirs (fs w)
      ∧ ∃ pre, Forall quiet pre
          ∧ progress_writes pre = [0.0; 0.2; 0.8]%float
          ∧ trace w' = trace w ++ pre
                       ++ (EvSave ∘ stem_file output_dir <$> sources sep)
                       ++ [EvUnlink input_path; EvSetStatus id "completed";
                           EvSetProgress id 1.0%float; EvSetStems id m].

(** The world [wm] when the loop over the stems starts. *)
Definition at_saving (id output_dir : string) (j : JobStatus) (w wm : World) : Prop :=
  frame w wm
  ∧ jobs wm = <[id := mkJobStatus (job_id j) "processing" (Some 0.8%float)
                                  (error j) (stems j)]> (jobs w)
  ∧ fs wm = add_dir output_dir (fs w)
  ∧ ∃ pre, trace wm = trace w ++ pre ∧ Forall quiet pre
         ∧ progress_writes pre = [0.0; 0.2; 0.8]%float.

(** What the [except] clause does to the world [wb] the body left. *)
Definition worker_failed (id : string) (e : exn) (wb w' : World) : Prop :=
  frame wb w' ∧ fs w' = fs wb
  ∧ trace w' = trace wb ++ [EvSetStatus id "failed"; EvSetError id (str e)]
  ∧ ∃ jb, jobs wb !! id = Some jb
      ∧ jobs w' = <[id := with_error (str e) (with_status "failed" jb)]> (jobs wb).

(** ** The server between two steps *)

(** The globals set at startup are as they were, and the trace has grown. *)
Definition extends (w w' : World) : Prop :=
  DATA_DIR w' = DATA_DIR w ∧ separator w' = separator w
  ∧ trace w `prefix_of` trace w'.

(** The three shapes of a record between two steps: waiting for its worker,
    completed, or failed at one of the first three checkpoints. *)
Definition job_ok (j : JobStatus) : Prop :=
  (status j = "pending" ∧ progress j = Some 0.0%float
   ∧ error j = None ∧ stems j = None)
  ∨ (status j = "completed" ∧ progress j = Some 1.0%float
     ∧ error j = None ∧ is_Some (stems j))
  ∨ (status j = "failed"
     ∧ (progress j = Some 0.0%float ∨ progress j = Some 0.2%float
        ∨ progress j = Some 0.8%float)
     ∧ is_Some (error j) ∧ stems j = None).

(** What one run of the worker makes of a record. *)
Definition worker_end (j j' : JobStatus) : Prop :=
  (status j' = "completed" ∧ progress j' = Some 1.0%float
   ∧ error j' = error j ∧ is_Some (stems j'))
  ∨ (status j' = "failed"
     ∧ (progress j' = Some 0.0%float ∨ progress j' = Some 0.2%float
        ∨ progress j' = Some 0.8%float)
     ∧ is_Some (error j') ∧ stems j' = stems j).

(** What one step of the server does to the store and to the dispatched
    tasks. *)
Definition step_summary (w w' : World) : Prop :=
  extends w w'
  ∧ ((jobs w' = jobs w ∧ background_tasks w' = background_tasks w)
     ∨ (∃ id ip od,
          (EvUuid4 id ∉ trace w) ∧ EvUuid4 id ∈ trace w' ∧ separator w ≠ None
          ∧ jobs w' = <[id := mkJobStatus id "pending" (Some 0.0%float) None None]>
                        (jobs w)
          ∧ background_tasks w' = background_tasks w ++ [mkTask id ip od])
     ∨ (∃ id, jobs w' = delete id (jobs w)
            ∧ background_tasks w' = background_tasks w)
     ∨ (∃ t l1 l2 j j',
          background_tasks w = l1 ++ t :: l2 ∧ background_tasks w' = l1 ++ l2
          ∧ jobs w !! task_job_id t = Some j
          ∧ jobs w' = <[task_job_id t := j']> (jobs w) ∧ worker_end j j'
          ∧ ∃ evs, trace w' = trace w ++ evs
                 ∧ (separator w ≠ None → Forall no_raise evs)
                 ∧ progress_writes evs `prefix_of` [0.0; 0.2; 0.8; 1.0]%float)
     ∨ (∃ t l1 l2,
          background_tasks w = l1 ++ t :: l2 ∧ background_tasks w' = l1 ++ l2
          ∧ jobs w !! task_job_id t = None ∧ jobs w' = jobs w
          ∧ trace w' = trace w)).

(** The invariant of the server: the records have one of the three shapes,
    a dispatched task waits on a record that is still pending, no two
    dispatched tasks are for one id, every id of the store or of a task came
    from [uuid4], and tasks are only dispatched with a model loaded. *)
Definition server_inv (w : World) : Prop :=
  (∀ id j, jobs w !! id = Some j → job_ok j)
  ∧ (∀ t j, t ∈ background_tasks w → jobs w !! task_job_id t = Some j →
       status j = "pending")
  ∧ NoDup (task_job_id <$> background_tasks w)
  ∧ (∀ id, is_Some (jobs w !! id) → EvUuid4 id ∈ trace w)
  ∧ (∀ t, t ∈ background_tasks w → EvUuid4 (task_job_id t) ∈ trace w)
  ∧ (background_tasks w ≠ [] → separator w ≠ None).

(** A record at a later observation: the same, or a pending record that has
    reached a final status. *)
Definition evolves (j j' : JobStatus) : Prop :=
  j' = j ∨ (status j = "pending" ∧ status j' ≠ "pending").

(** [p ≤ q] on the optional progress of two records. *)
Definition progress_le (p q : option float) : Prop :=
  match p, q with
  | Some x, Some y => PrimFloat.leb x y = true
  | _, _ => False
  end.

(** ** A run of the server, for the examples *)

Definition example_model : Model :=
  mkModel 44100 ["drums"; "bass"; "other"; "vocals"].

Definition example_startup : StartupEnv :=
  mkStartupEnv (Ret example_model) (Ret tt) (Ret tt).

(** The server started with its model, on an empty disk. *)
Definition example_boot : World := boot "/app/data" (mkFS ∅ ∅) example_startup.

Definition example_submit : SubmitEnv :=
  mkSubmitEnv "job-1" (λ _, Ret tt) (λ _ _, Ret tt).

Definition example_file : UploadFile := mkUploadFile "song.wav" (Ret []).

(** After the upload of [song.wav]: one pending job, one dispatched task. *)
Definition example_pending : World :=
  (separate_audio example_submit example_file example_boot).2.

Definition example_task : Task :=
  mkTask "job-1" "/app/data/input/job-1_song.wav" "/app/data/output/job-1".

Definition example_record : JobStatus :=
  mkJobStatus "job-1" "pending" (Some 0.0%float) None None.

(** A mono recording at 22050 Hz, a resampler that doubles every sample, a
    model that gives four stems, and a disk that takes every write. *)
Definition example_worker : WorkerEnv :=
  mkWorkerEnv (Ret tt)
    (λ _, Ret ([[0.5%float; 0.25%float]], 22050))
    (λ _ _ c, c ≫= λ x, [x; x]) None (Ret tt)
    (λ _ waveform, Ret [waveform; waveform; waveform; waveform])
    (λ _, Ret tt) (λ _ _ _, Ret tt) (λ _, Ret tt).

(** The same, with a file that does not decode. *)
Definition example_undecodable : WorkerEnv :=
  mkWorkerEnv (Ret tt)
    (λ _, Raise (RuntimeError "Failed to decode audio"))
    (λ _ _ c, c) None (Ret tt)
    (λ _ waveform, Ret [waveform; waveform; waveform; waveform])
    (λ _, Ret tt) (λ _ _ _, Ret tt) (λ _, Ret tt).

(** After the worker of the job has run, with each of the two. *)
Definition example_completed : World :=
  (run_task example_worker example_task
     (set_background_tasks ([] ++ []) example_pending)).2.

Definition example_failed : World :=
  (run_task example_undecodable example_task
     (set_background_tasks ([] ++ []) example_pending)).2.

(** A removal of the output tree that is refused. *)
Definition example_rmtree_refused : DeleteEnv :=
  mkDeleteEnv (λ _, Raise (Exception "PermissionError" "[Errno 13] Permission denied")).

Definition example_rmtree : DeleteEnv := mkDeleteEnv (λ _, Ret tt).

Definition example_completed_record : JobStatus :=
  mkJobStatus "job-1" "completed" (Some 1.0%float) None
    (Some (recorded_stems "/app/data/output/job-1" (sources example_model) ∅)).

Definition example_failed_record : JobStatus :=
  mkJobStatus "job-1" "failed" (Some 0.0%float)
    (Some "Failed to decode audio") None.

(** An upload whose write to the disk fails. *)
Definition example_disk_full : SubmitEnv :=
  mkSubmitEnv "job-2" (λ _, Ret tt)
    (λ _ _, Raise (Exception "OSError" "[Errno 28] No space left on device")).

(** ** Predicates of the further properties *)

(** Nothing but the trace differs. *)
Definition same_state (w w' : World) : Prop :=
  DATA_DIR w' = DATA_DIR w ∧ separator w' = separator w ∧ jobs w' = jobs w
  ∧ fs w' = fs w ∧ background_tasks w' = background_tasks w.

(** Every pending record has a dispatched task waiting for it. *)
Definition pending_dispatched (w : World) : Prop :=
  ∀ id j, jobs w !! id = Some j → status j = "pending" →
    ∃ t, t ∈ background_tasks w ∧ task_job_id t = id.

(** Every record is stored under its own [job_id]. *)
Definition keyed_by_job_id (w : World) : Prop :=
  ∀ id j, jobs w !! id = Some j → job_id j = id.

Definition example_config : Config := mkConfig "htdemucs" "cpu".

(** The pending job deleted before its worker has run. *)
Definition example_deleted : World :=
  (delete_job example_rmtree "job-1" example_pending).2.

(** After the completed job is deleted. *)
Definition example_cleaned : World :=
  (delete_job example_rmtree "job-1" example_completed).2.

(** A model that gives fewer tensors than it names sources. *)
Definition example_short_output : list Tensor := [[[0.5%float]; [0.5%float]]].

(** ** The run of the pipeline that ends "completed" *)

(** The waveform given to the model when the resampler does not raise:
    resampled if its rate is not the model's, then brought to two channels. *)
Definition normalized (env : WorkerEnv) (sep : Model)
    (waveform : Tensor) (sample_rate : Z) : Tensor :=
  ensure_stereo
    (if bool_decide (sample_rate ≠ samplerate sep)
     then Resample_kernel env sample_rate (samplerate sep) <$> waveform
     else waveform).

(** Every turn of the loop over [names], from index [i] on, finds its tensor
    and has its file written. *)
Definition saves_return (env : WorkerEnv) (sep : Model) (output_dir : string)
    (separated : list Tensor) (i : nat) (names : list string) : Prop :=
  ∀ k n, names !! k = Some n →
    ∃ audio, separated !! (i + k)%nat = Some audio
      ∧ torchaudio_save env (stem_file output_dir n) audio (samplerate sep) = Ret tt.

(** Every call of the pipeline to the outside returns: the import, the
    decoding, the resampler when the rates differ, the move to the device,
    the model, the making of the output directory, every turn of the loop
    over the stems, and the removal of the input file. *)
Definition pipeline_returns (env : WorkerEnv) (sep : Model)
    (input_path output_dir : string) : Prop :=
  import_demucs env = Ret tt
  ∧ ∃ waveform sample_rate,
      torchaudio_load env input_path = Ret (waveform, sample_rate)
      ∧ (sample_rate ≠ samplerate sep → Resample_raises env = None)
      ∧ to_device env = Ret tt
      ∧ ∃ separated,
          apply_model env sep (normalized env sep waveform sample_rate)
          = Ret separated
          ∧ mkdir env output_dir = Ret tt
          ∧ saves_return env sep output_dir separated 0 (sources sep)
          ∧ unlink env input_path = Ret tt.

(** * Reasoning about computations *)

Section wp_rules.
Context {A B : Type}.
Implicit Types (Q : A → World → Prop) (E : exn → World → Prop) (w : World).

Lemma wp_run (m : M A) Q E w r w' :
  wp m Q E w → m w = (r, w') →
  match r with Ret a => Q a w' | Raise e => E e w' end.
Proof. unfold wp. intros H Hm. rewrite Hm in H. destruct r; exact H. Qed.

Lemma wp_mono (m : M A) Q Q' E E' w :
  wp m Q E w →
  (∀ a w', Q a w' → Q' a w') → (∀ e w', E e w' → E' e w') →
  wp m Q' E' w.
Proof. unfold wp. destruct (m w) as [[a|e] w']; auto. Qed.

Lemma wp_ret (a : A) Q E w : Q a w → wp (mret a) Q E w.
Proof. exact id. Qed.

Lemma wp_bind (m : M A) (k : A → M B) (Q : B → World → Prop) E w :
  wp m (λ a w', wp (k a) Q E w') E w → wp (m ≫= k) Q E w.
Proof.
  unfold wp, mbind, M_bind, bind. destruct (m w) as [[a|e] w']; auto.
Qed.

Lemma wp_throw (e : exn) Q E w : E e w → wp (throw e) Q E w.
Proof. exact id. Qed.

Lemma wp_raise (e : exn) Q E w :
  E e (log_event (EvRaise e) w) → wp (raise_ e) Q E w.
Proof. exact id. Qed.

Lemma wp_get (f : World → A) Q E w : Q (f w) w → wp (get f) Q E w.
Proof. exact id. Qed.

Lemma wp_try_except (body : M A) (handler : exn → M A) Q E w :
  wp body Q (λ e w', wp (handler e) Q E w') w →
  wp (try_except body handler) Q E w.
Proof.
  unfold wp, try_except. destruct (body w) as [[a|e] w']; auto.
Qed.

Lemma wp_ext (ev : event) (r : outcome A) (effect : FS → FS) Q E w :
  match r with
  | Ret a => Q a (set_fs (effect (fs w)) (log_event ev w))
  | Raise e => E e (log_event ev w)
  end →
  wp (ext ev r effect) Q E w.
Proof. unfold wp, ext. destruct r; auto. Qed.

End wp_rules.

Lemma wp_setattr_job id ev f (Q : unit → World → Prop) E w j :
  jobs w !! id = Some j →
  Q tt (log_event ev (set_jobs (<[id := f j]> (jobs w)) w)) →
  wp (setattr_job id ev f) Q E w.
Proof. unfold wp, setattr_job. intros ->. auto. Qed.

Lemma wp_setattr_job_unknown id ev f (Q : unit → World → Prop) E w :
  jobs w !! id = None → E (KeyError id) w → wp (setattr_job id ev f) Q E w.
Proof. unfold wp, setattr_job. intros ->. auto. Qed.

Lemma saved_frame od names w : frame w (saved od names w).
Proof.
  revert w. induction names as [|n names IH]; intros w; [done|].
  destruct (IH (set_fs (add_file (stem_file od n) (fs w))
                       (log_event (EvSave (stem_file od n)) w))) as (?&?&?).
  by repeat split.
Qed.

Lemma saved_jobs od names w : jobs (saved od names w) = jobs w.
Proof.
  revert w. induction names as [|n names IH]; intros w; [done|].
  simpl. by rewrite IH.
Qed.

Lemma saved_trace od names w :
  trace (saved od names w) = trace w ++ (EvSave ∘ stem_file od <$> names).
Proof.
  revert w. induction names as [|n names IH]; intros w; simpl.
  - by rewrite app_nil_r.
  - rewrite IH. simpl. by rewrite <- app_assoc.
Qed.

Lemma saved_files od names w :
  files (fs (saved od names w))
  = files (fs w) ∪ list_to_set (stem_file od <$> names).
Proof.
  revert w. induction names as [|n names IH]; intros w; simpl.
  - set_solver.
  - rewrite IH. simpl. set_solver.
Qed.

Lemma saved_dirs od names w : dirs (fs (saved od names w)) = dirs (fs w).
Proof.
  revert w. induction names as [|n names IH]; intros w; [done|].
  simpl. by rewrite IH.
Qed.

Lemma quiet_saves od names : Forall quiet (EvSave ∘ stem_file od <$> names).
Proof. induction names; constructor; simpl; auto. Qed.

(** The loop either saves every stem, or stops at the first stem that is
    missing from the model's output or cannot be written. *)
Lemma save_stems_spec env sep od separated names :
  ∀ i acc w,
    wp (save_stems env sep od separated i names acc)
       (λ m w', m = recorded_stems od names acc ∧ w' = saved od names w)
       (λ _ w', ∃ k, (k < length names)%nat
                ∧ (w' = saved od (take k names) w
                   ∨ ∃ n, names !! k = Some n
                      ∧ w' = log_event (EvSave (stem_file od n))
                                       (saved od (take k names) w)))
       w.
Proof.
  induction names as [|n names IH]; intros i acc w; [done|].
  cbn [save_stems]. apply wp_bind. unfold index_source.
  destruct (separated !! i) as [audio|].
  - apply wp_ret, wp_bind, wp_ext.
    destruct (torchaudio_save _ _ _ _).
    + eapply wp_mono; [apply IH| |]; simpl.
      * intros m w' [-> ->]. done.
      * intros _ w' (k & Hk & Hw'). exists (S k). split; [lia|]. done.
    + exists 0%nat. split; [simpl; lia|]. right. by exists n.
  - apply wp_throw. exists 0%nat. split; [simpl; lia|]. by left.
Qed.

Lemma quiet_no_raise ev : quiet ev → no_raise ev.
Proof. by destruct ev. Qed.

Lemma no_raise_saves od names : Forall no_raise (EvSave ∘ stem_file od <$> names).
Proof. eapply Forall_impl; [apply quiet_saves|apply quiet_no_raise]. Qed.

Lemma silent_saves od names : Forall silent (EvSave ∘ stem_file od <$> names).
Proof. induction names; constructor; simpl; auto. Qed.

Lemma silent_no_raise evs : Forall silent evs → Forall no_raise evs.
Proof. intros H. eapply Forall_impl; [exact H|]. by intros []. Qed.

Lemma progress_writes_app evs1 evs2 :
  progress_writes (evs1 ++ evs2) = progress_writes evs1 ++ progress_writes evs2.
Proof. apply omap_app. Qed.

Lemma progress_writes_silent evs : Forall silent evs → progress_writes evs = [].
Proof.
  induction 1 as [|ev evs Hev _ IH]; [done|].
  destruct ev; try done; exact IH.
Qed.

Ltac solve_events :=
  repeat first
    [ exact I
    | apply Forall_nil_2
    | apply Forall_cons_2
    | apply Forall_app_2
    | apply quiet_saves
    | apply silent_saves
    | apply no_raise_saves ].

(** * The worker, step by step *)

(** Lines 165-177, from a world [wm] in which the job is known. *)
Lemma finish_spec env sep id ip od separated wm jm :
  jobs wm !! id = Some jm →
  let m := recorded_stems od (sources sep) ∅ in
  wp (save_stems env sep od separated 0 (sources sep) ∅ ≫= λ stems,
      ext (EvUnlink ip) (unlink env ip) (remove_file ip) ;;
      set_status id "completed" ;;
      set_progress id 1.0 ;;
      set_stems id stems)
     (λ _ w',
        frame wm w'
        ∧ jobs w' = <[id := with_stems m (with_progress 1.0
                               (with_status "completed" jm))]> (jobs wm)
        ∧ files (fs w') = (files (fs wm)
                           ∪ list_to_set (stem_file od <$> sources sep)) ∖ {[ip]}
        ∧ dirs (fs w') = dirs (fs wm)
        ∧ trace w' = trace wm ++ (EvSave ∘ stem_file od <$> sources sep)
                     ++ [EvUnlink ip; EvSetStatus id "completed";
                         EvSetProgress id 1.0%float; EvSetStems id m])
     (λ _ w',
        frame wm w' ∧ jobs w' = jobs wm ∧ dirs (fs w') = dirs (fs wm)
        ∧ files (fs wm) ⊆ files (fs w')
        ∧ ∃ evs, trace w' = trace wm ++ evs ∧ Forall silent evs)
     wm.
Proof.
  intros Hjm m. apply wp_bind.
  eapply wp_mono; [apply save_stems_spec| |]; cbv beta.
  - intros ? w' [-> ->]. fold m.
    pose proof (saved_frame od (sources sep) wm) as Hfr.
    pose proof (saved_jobs od (sources sep) wm) as Hjobs.
    pose proof (saved_trace od (sources sep) wm) as Htr.
    pose proof (saved_files od (sources sep) wm) as Hfiles.
    pose proof (saved_dirs od (sources sep) wm) as Hdirs.
    generalize dependent (saved od (sources sep) wm). intros ws Hfr Hjobs Htr Hfiles Hdirs.
    apply wp_bind, wp_ext. destruct (unlink env ip) as [[]|e].
    + unfold set_status, set_progress, set_stems.
      apply wp_bind. eapply wp_setattr_job.
      { cbn [jobs log_event set_jobs set_fs]. by rewrite Hjobs. }
      apply wp_bind. eapply wp_setattr_job.
      { cbn [jobs log_event set_jobs set_fs]. apply lookup_insert_eq. }
      eapply wp_setattr_job.
      { cbn [jobs log_event set_jobs set_fs]. apply lookup_insert_eq. }
      cbn [jobs log_event set_jobs set_fs fs trace files dirs remove_file].
      rewrite !insert_insert_eq, Hjobs, Hfiles, Hdirs, Htr.
      split; [exact Hfr|]. repeat split. by rewrite <- !app_assoc.
    + cbn [jobs log_event set_jobs set_fs fs trace files dirs].
      split; [exact Hfr|]. split; [done|]. split; [done|].
      split; [set_solver|]. rewrite Htr, <- app_assoc.
      eexists; split; [reflexivity|]. solve_events.
  - intros _ w' (k & Hk & Hw').
    pose proof (saved_frame od (take k (sources sep)) wm) as Hfr.
    pose proof (saved_jobs od (take k (sources sep)) wm) as Hjobs.
    pose proof (saved_trace od (take k (sources sep)) wm) as Htr.
    pose proof (saved_files od (take k (sources sep)) wm) as Hfiles.
    pose proof (saved_dirs od (take k (sources sep)) wm) as Hdirs.
    destruct Hw' as [->|(n & Hn & ->)];
      cbn [jobs log_event set_jobs set_fs fs trace files dirs];
      (split; [exact Hfr|]); (split; [done|]); (split; [done|]);
      (split; [set_solver|]); rewrite Htr, <- ?app_assoc;
      (eexists; split; [reflexivity|]); solve_events.
Qed.

Ltac world_simpl :=
  cbn [jobs fs trace DATA_DIR separator background_tasks files dirs
       log_event set_jobs set_fs set_background_tasks set_separator
       add_file add_dir remove_file id fst snd].

(** [extends] between a world and one built from it by the steps so far. *)
Ltac solve_extends :=
  split; [reflexivity|]; split; [reflexivity|];
  unfold raise_, throw; world_simpl; rewrite <- ?app_assoc;
  first [reflexivity | by apply prefix_app_r].

Ltac job_simpl :=
  world_simpl; rewrite ?insert_insert_eq;
  unfold with_stems, with_error, with_progress, with_status;
  cbn [job_id status progress error stems].

(** The goal [body_raised] at a world built by the steps so far. *)
Ltac solve_raised :=
  split; [by repeat split|];
  split;
  [ eexists; split; [|split];
    [ | job_simpl; reflexivity | ];
    [ auto | intros Hp; world_simpl; first [reflexivity | by destruct Hp] ]
  | split;
    [ world_simpl; set_solver
    | world_simpl; rewrite <- ?app_assoc;
      eexists; split; [reflexivity|]; split;
      [ intros Hne; first [congruence | solve_events]
      | by eexists ] ] ].

Ltac wp_step :=
  lazymatch goal with
  | |- wp (save_stems _ _ _ _ _ _ _ ≫= _) _ _ _ => fail
  | |- wp (_ ≫= _) _ _ _ => apply wp_bind
  | |- wp (mret _) _ _ _ => apply wp_ret
  | |- wp (get _) _ _ _ => apply wp_get
  | |- wp (raise_ _) _ _ _ => apply wp_raise
  | |- wp (throw _) _ _ _ => apply wp_throw
  | |- wp (ext _ (Ret _) _) _ _ _ => apply wp_ext
  | |- wp (ext _ (Raise _) _) _ _ _ => apply wp_ext
  | |- wp (ext _ ?r _) _ _ _ =>
      apply wp_ext; let a := fresh "a" in let e := fresh "e" in
      destruct r as [a|e];
      [ try lazymatch type of a with
            | unit => destruct a
            | prod _ _ => destruct a
            end
      | ]
  | |- wp (setattr_job _ _ _) _ _ _ =>
      eapply wp_setattr_job;
      [ world_simpl; first [eassumption | apply lookup_insert_eq]
      | world_simpl; rewrite ?insert_insert_eq ]
  end.

(** Steps while the callees return; a callee that raises ends the [try]. *)
Ltac wp_steps := repeat (wp_step; [|solve_raised..]).

Lemma finish_body_spec env sep id ip od separated j w wm :
  separator w = Some sep →
  at_saving id od j w wm →
  wp (save_stems env sep od separated 0 (sources sep) ∅ ≫= λ stems,
      ext (EvUnlink ip) (unlink env ip) (remove_file ip) ;;
      set_status id "completed" ;;
      set_progress id 1.0 ;;
      set_stems id stems)
     (λ _ w', body_returned id ip od j w w')
     (λ _ w', body_raised id j w w') wm.
Proof.
  intros Hsep ((Hd & Hs & Hb) & Hjobs & Hfs & pre & Htr & Hpre & Hwr).
  eapply wp_mono; [eapply finish_spec; rewrite Hjobs; apply lookup_insert_eq| |];
    cbv beta zeta.
  - intros _ w' ((Hd' & Hs' & Hb') & Hjobs' & Hfiles' & Hdirs' & Htr').
    split; [unfold frame; by rewrite Hd', Hs', Hb'|].
    exists sep. split; [done|]. cbv zeta.
    rewrite Hjobs', Hjobs, insert_insert_eq, Hfiles', Hdirs', Htr', Hfs, Htr.
    repeat split. exists pre. split; [done|]. split; [done|].
    by rewrite <- app_assoc.
  - intros _ w' ((Hd' & Hs' & Hb') & Hjobs' & Hdirs' & Hfiles' & evs & Htr' & Hevs).
    split; [unfold frame; by rewrite Hd', Hs', Hb'|].
    split.
    { exists 0.8%float. split; [auto|]. split; [by rewrite Hjobs', Hjobs|done]. }
    split; [by rewrite Hfs in Hfiles'|].
    exists (pre ++ evs). rewrite Htr', Htr, <- app_assoc. split; [done|].
    split.
    + intros _. apply Forall_app_2; [|by apply silent_no_raise].
      eapply Forall_impl; [exact Hpre|apply quiet_no_raise].
    + rewrite progress_writes_app, Hwr, (progress_writes_silent evs Hevs).
      by rewrite app_nil_r.
Qed.

Ltac solve_at_saving :=
  split; [by repeat split|];
  split; [job_simpl; reflexivity|];
  split; [world_simpl; reflexivity|];
  world_simpl; rewrite <- ?app_assoc;
  eexists; split; [reflexivity|]; split; [solve_events|reflexivity].

(** The body of the [try], from a world in which the job is known. *)
Lemma separation_body_spec env id ip od w j :
  jobs w !! id = Some j →
  wp (separation_body env id ip od)
     (λ _ w', body_returned id ip od j w w')
     (λ _ w', body_raised id j w w') w.
Proof.
  intros Hj. unfold separation_body, set_status, set_progress, set_stems.
  wp_steps. world_simpl.
  destruct (separator w) as [sep|] eqn:Hsep.
  2:{ wp_step. solve_raised. }
  wp_steps. unfold normalize. wp_steps.
  case_bool_decide.
  - unfold Resample. destruct (Resample_raises env) as [e|].
    + wp_step. solve_raised.
    + wp_steps. apply finish_body_spec; [done|solve_at_saving].
  - wp_steps. apply finish_body_spec; [done|solve_at_saving].
Qed.

(** The worker on a known job: it returns, and what it leaves follows from
    how the body of its [try] ended. *)
Lemma process_separation_spec env id ip od w j :
  jobs w !! id = Some j →
  ∃ w', process_separation env id ip od w = (Ret tt, w')
    ∧ match separation_body env id ip od w with
      | (Ret _, wb) => w' = wb ∧ body_returned id ip od j w wb
      | (Raise e, wb) => body_raised id j w wb ∧ worker_failed id e wb w'
      end.
Proof.
  intros Hj. pose proof (separation_body_spec env id ip od w j Hj) as Hbody.
  unfold wp in Hbody. unfold process_separation, try_except.
  destruct (separation_body env id ip od w) as [[[]|e] wb].
  - by exists wb.
  - destruct Hbody as (Hfr & (p & Hp & Hjobs & Hfs) & Hfiles & Htr).
    assert (jobs wb !! id = Some (mkJobStatus (job_id j) "processing" (Some p)
                                              (error j) (stems j))) as Hjb.
    { rewrite Hjobs. apply lookup_insert_eq. }
    eexists. split.
    + unfold mbind, M_bind, bind, set_status, set_error, setattr_job.
      rewrite Hjb. world_simpl. rewrite lookup_insert_eq. reflexivity.
    + split; [split; [done|]; split; [by exists p|]; by split|].
      split; [done|]. split; [done|]. split.
      { world_simpl. by rewrite <- app_assoc. }
      eexists. split; [exact Hjb|]. job_simpl. reflexivity.
Qed.

(** The worker on an id that is not in the store: the first subscript raises
    [KeyError], so does the one of the [except] clause, and the exception
    leaves the worker with the world as it was. *)
Lemma process_separation_unknown env id ip od w :
  jobs w !! id = None →
  process_separation env id ip od w = (Raise (KeyError id), w).
Proof.
  intros Hj.
  unfold process_separation, try_except, separation_body, mbind, M_bind, bind,
    set_status, set_error, setattr_job.
  cbv beta. rewrite Hj. cbv beta iota. by rewrite Hj.
Qed.

(** The two ways a run of the worker on a known job ends. *)
Lemma worker_summary env id ip od w j :
  jobs w !! id = Some j →
  ∃ w' j', process_separation env id ip od w = (Ret tt, w')
    ∧ frame w w' ∧ jobs w' = <[id := j']> (jobs w) ∧ job_id j' = job_id j
    ∧ (∃ evs, trace w' = trace w ++ evs
            ∧ (separator w ≠ None → Forall no_raise evs)
            ∧ progress_writes evs `prefix_of` [0.0; 0.2; 0.8; 1.0]%float)
    ∧ ((separation_body env id ip od w = (Ret tt, w')
        ∧ body_returned id ip od j w w'
        ∧ status j' = "completed" ∧ progress j' = Some 1.0%float
        ∧ error j' = error j ∧ is_Some (stems j'))
       ∨ (∃ e wb p, separation_body env id ip od w = (Raise e, wb)
            ∧ status j' = "failed" ∧ error j' = Some (str e)
            ∧ stems j' = stems j ∧ progress j' = Some p
            ∧ (p = 0.0 ∨ p = 0.2 ∨ p = 0.8)%float
            ∧ files (fs w) ⊆ files (fs w')
            ∧ (p ≠ 0.8%float → fs w' = fs w))).
Proof.
  intros Hj. destruct (process_separation_spec env id ip od w j Hj) as (w' & Hrun & Hb).
  destruct (separation_body env id ip od w) as [[[]|e] wb] eqn:Hbody.
  - destruct Hb as [-> Hret]. pose proof Hret as Hret'.
    destruct Hret' as (Hfr & sep & Hsep & Hjobs & Hfiles & Hdirs & pre & Hpre
                       & Hwr & Htr).
    cbv zeta in *. eexists _, _. split; [exact Hrun|].
    split; [done|]. split; [exact Hjobs|]. split; [done|]. split.
    { eexists. split; [exact Htr|]. split.
      - intros _.
        apply Forall_app_2; [by eapply Forall_impl; [|apply quiet_no_raise]|].
        solve_events.
      - rewrite !progress_writes_app, Hwr,
          (progress_writes_silent _ (silent_saves od (sources sep))).
        reflexivity. }
    left. split; [done|]. split; [exact Hret|]. simpl. by split_and!; eauto.
  - destruct Hb as [Hraised (Hfr' & Hfs' & Htr' & jb & Hjb & Hjobs')].
    destruct Hraised as (Hfr & (p & Hp & Hjobs & Hfs) & Hfiles & evs & Htr & Hevs
                         & Hwr).
    rewrite Hjobs, lookup_insert_eq in Hjb. injection Hjb as <-.
    rewrite Hjobs, insert_insert_eq in Hjobs'.
    destruct Hfr as (?&?&?), Hfr' as (?&?&?).
    eexists _, _. split; [exact Hrun|].
    split; [unfold frame; by split_and!; congruence|].
    split; [exact Hjobs'|]. split; [done|]. split.
    { exists (evs ++ [EvSetStatus id "failed"; EvSetError id (str e)]).
      rewrite Htr', Htr, <- app_assoc. split; [done|]. split.
      - intros Hsep. apply Forall_app_2; [by apply Hevs|solve_events].
      - rewrite progress_writes_app, app_nil_r.
        etrans; [exact Hwr|]. by exists [1.0%float]. }
    right. exists e, wb, p. rewrite Hfs'. simpl. by split_and!.
Qed.

(** * The handlers, unfolded *)

Lemma download_stem_unfold id stem_name w :
  download_stem id stem_name w
  = match jobs w !! id with
    | None => raise_ (HTTPException 404 "Job not found") w
    | Some job =>
        if bool_decide (status job ≠ "completed") then
          raise_ (HTTPException 400 ("Job not completed: " +:+ status job)) w
        else if not_stems (stems job)
                || bool_decide (stems job ≫= (.!! stem_name) = None) then
          raise_ (HTTPException 404 ("Stem '" +:+ stem_name +:+ "' not found")) w
        else
          match stems job ≫= (.!! stem_name) with
          | None => throw (KeyError stem_name) w
          | Some stem_path =>
              if negb (exists_ stem_path (fs w)) then
                raise_ (HTTPException 404 "Stem file not found") w
              else
                (Ret (FileResponse stem_path "audio/wav" (stem_name +:+ ".wav")), w)
          end
    end.
Proof.
  unfold download_stem, mbind, M_bind, bind, get. cbv beta iota.
  by repeat case_match.
Qed.

Lemma not_stems_lookup (m : gmap string string) stem_name p :
  m !! stem_name = Some p → not_stems (Some m) = false.
Proof.
  intros Hp. unfold not_stems. case_bool_decide as Hm; [|done].
  subst m. by rewrite lookup_empty in Hp.
Qed.

Lemma separate_audio_unfold env file w :
  separate_audio env file w
  = match separator w with
    | None => raise_ (HTTPException 503 "Model not loaded") w
    | Some _ =>
        let job_id := uuid4 env in
        let w1 := set_fs (fs w) (log_event (EvUuid4 job_id) w) in
        let input_path :=
          DATA_DIR w </> "input" </> (job_id +:+ "_" +:+ filename file) in
        let output_dir := DATA_DIR w </> "output" </> job_id in
        match try_except
                (content ← ext (EvRead (filename file)) (read file) id;
                 ext (EvOpen input_path) (open_wb env input_path)
                     (add_file input_path) ;;
                 ext (EvWrite input_path) (write env input_path content) id)
                (λ e, raise_ (HTTPException 500 ("Failed to save file: " +:+ str e)))
                w1 with
        | (Ret _, w2) =>
            (Ret (JobCreated job_id "pending"),
             log_event (EvAddTask (mkTask job_id input_path output_dir))
               (set_background_tasks
                  (background_tasks w2 ++ [mkTask job_id input_path output_dir])
                  (log_event (EvJobsInsert job_id)
                     (set_jobs (<[job_id := mkJobStatus job_id "pending"
                                              (Some 0.0%float) None None]>
                                  (jobs w2)) w2))))
        | (Raise e, w2) => (Raise e, w2)
        end
    end.
Proof.
  unfold separate_audio at 1. unfold mbind at 1, M_bind at 1, bind at 1, get at 1.
  cbv beta iota. destruct (separator w); [|done].
  unfold mbind at 1, M_bind at 1, bind at 1. unfold ext at 1. cbv beta iota.
  unfold mbind at 1, M_bind at 1, bind at 1, get at 1. cbv beta iota zeta.
  unfold mbind at 1, M_bind at 1, bind at 1. world_simpl.
  by destruct (try_except _ _ _) as [[?|?] ?].
Qed.

(** The staging of the upload, lines 206-211, keeps the job store and the
    dispatched tasks, and when it raises it raises the 500 of its handler. *)
Lemma staging_spec env file input_path w1 :
  wp (try_except
        (content ← ext (EvRead (filename file)) (read file) id;
         ext (EvOpen input_path) (open_wb env input_path) (add_file input_path) ;;
         ext (EvWrite input_path) (write env input_path content) id)
        (λ e, raise_ (HTTPException 500 ("Failed to save file: " +:+ str e))))
     (λ _ w2, extends w1 w2
              ∧ jobs w2 = jobs w1 ∧ background_tasks w2 = background_tasks w1
              ∧ ∃ content, read file = Ret content
                  ∧ open_wb env input_path = Ret tt
                  ∧ write env input_path content = Ret tt)
     (λ e' w2, extends w1 w2
               ∧ jobs w2 = jobs w1 ∧ background_tasks w2 = background_tasks w1
               ∧ ∃ e, e' = HTTPException 500 ("Failed to save file: " +:+ str e)
                   ∧ (read file = Raise e
                      ∨ ∃ content, read file = Ret content
                          ∧ (open_wb env input_path = Raise e
                             ∨ open_wb env input_path = Ret tt
                               ∧ write env input_path content = Raise e)))
     w1.
Proof.
  apply wp_try_except, wp_bind, wp_ext.
  destruct (read file) as [content|e] eqn:Hread.
  - apply wp_bind, wp_ext.
    destruct (open_wb env input_path) as [[]|e] eqn:Hopen.
    + apply wp_ext. destruct (write env input_path content) as [[]|e] eqn:Hwrite.
      * split; [solve_extends|]. by eauto 10.
      * apply wp_raise. split; [solve_extends|]. by eauto 10.
    + apply wp_raise. split; [solve_extends|]. by eauto 10.
  - apply wp_raise. split; [solve_extends|]. by eauto 10.
Qed.

Lemma delete_job_unfold env id w :
  delete_job env id w
  = match jobs w !! id with
    | None => raise_ (HTTPException 404 "Job not found") w
    | Some _ =>
        let output_dir := DATA_DIR w </> "output" </> id in
        if exists_ output_dir (fs w) then
          match rmtree env output_dir with
          | Ret _ =>
              (Ret (JobDeleted "deleted" id),
               log_event (EvJobsDel id)
                 (set_jobs (delete id (jobs w))
                    (set_fs (remove_tree output_dir (fs w))
                       (log_event (EvRmtree output_dir) w))))
          | Raise e => (Raise e, log_event (EvRmtree output_dir) w)
          end
        else
          (Ret (JobDeleted "deleted" id),
           log_event (EvJobsDel id) (set_jobs (delete id (jobs w)) w))
    end.
Proof.
  unfold delete_job, mbind, M_bind, bind, get, jobs_del, ext, mret, M_ret, ret.
  cbv beta iota.
  destruct (jobs w !! id) as [job|] eqn:Hjob; [|done]. cbv zeta.
  destruct (exists_ _ _).
  - destruct (rmtree env _) as [[]|e]; [|done]. world_simpl. by rewrite Hjob.
  - by rewrite Hjob.
Qed.

Lemma get_job_status_unfold id w :
  get_job_status id w
  = match jobs w !! id with
    | None => raise_ (HTTPException 404 "Job not found") w
    | Some job => (Ret (JobRecord job), w)
    end.
Proof.
  unfold get_job_status, mbind, M_bind, bind, get. cbv beta iota.
  by destruct (jobs w !! id).
Qed.

(** * The steps of the server *)

Lemma extends_refl w : extends w w.
Proof. by repeat split. Qed.

Lemma extends_trans w1 w2 w3 : extends w1 w2 → extends w2 w3 → extends w1 w3.
Proof.
  intros (?&?&?) (?&?&?). unfold extends.
  split_and!; [congruence..|by etrans].
Qed.

Lemma separate_audio_summary env file w :
  EvUuid4 (uuid4 env) ∉ trace w →
  step_summary w (separate_audio env file w).2.
Proof.
  intros Hfresh. rewrite separate_audio_unfold.
  destruct (separator w) as [sep|] eqn:Hsep.
  2:{ split; [solve_extends|]. by left. }
  cbv zeta.
  set (ip := DATA_DIR w </> "input" </> (uuid4 env +:+ "_" +:+ filename file)).
  pose proof (staging_spec env file ip
                (set_fs (fs w) (log_event (EvUuid4 (uuid4 env)) w))) as Hst.
  unfold wp in Hst. destruct (try_except _ _ _) as [[[]|e] w2]; cbn [snd].
  - destruct Hst as ((Hd & Hs & Htr) & Hjobs & Hbg & _).
    split.
    + split; [exact Hd|]. split; [exact Hs|]. world_simpl.
      do 2 apply prefix_app_r. etrans; [|exact Htr]. world_simpl.
      by apply prefix_app_r.
    + right. left. eexists _, _, _. split; [exact Hfresh|].
      split.
      { world_simpl. rewrite !elem_of_app. do 2 left.
        eapply elem_of_prefix; [|exact Htr]. world_simpl.
        rewrite elem_of_app. right. by apply list_elem_of_singleton. }
      split; [by rewrite Hsep|]. world_simpl. rewrite Hjobs, Hbg. by split.
  - destruct Hst as (Hext & Hjobs & Hbg & _). split.
    + eapply extends_trans; [|exact Hext]. solve_extends.
    + by left.
Qed.

Lemma get_job_status_summary id w : step_summary w (get_job_status id w).2.
Proof.
  rewrite get_job_status_unfold.
  destruct (jobs w !! id); (split; [solve_extends|by left]).
Qed.

Lemma download_stem_summary id stem_name w :
  step_summary w (download_stem id stem_name w).2.
Proof.
  rewrite download_stem_unfold.
  repeat case_match; (split; [solve_extends|by left]).
Qed.

Lemma delete_job_summary env id w : step_summary w (delete_job env id w).2.
Proof.
  rewrite delete_job_unfold.
  destruct (jobs w !! id); [|split; [solve_extends|by left]].
  cbv zeta. destruct (exists_ _ _); [destruct (rmtree env _) as [[]|e]|];
    (split; [solve_extends|]); try (by left); right; right; left; by eexists.
Qed.

Lemma run_task_summary env t l1 l2 w :
  background_tasks w = l1 ++ t :: l2 →
  step_summary w (run_task env t (set_background_tasks (l1 ++ l2) w)).2.
Proof.
  intros Hbg. unfold run_task.
  set (w0 := set_background_tasks (l1 ++ l2) w).
  destruct (jobs w !! task_job_id t) as [j|] eqn:Hj.
  - destruct (worker_summary env (task_job_id t) (task_input_path t)
                (task_output_dir t) w0 j Hj)
      as (w' & j' & -> & (Hd & Hs & Hb) & Hjobs & _ & (evs & Htr & Hevs & Hwr)
          & Hend).
    cbn [snd]. split.
    + split; [exact Hd|]. split; [exact Hs|]. rewrite Htr. by apply prefix_app_r.
    + do 3 right. left. exists t, l1, l2, j, j'.
      split; [done|]. split; [exact Hb|]. split; [done|]. split; [exact Hjobs|].
      split; [|by eauto].
      destruct Hend as [(_ & _ & ? & ? & ? & ?)|(e & wb & p & _ & ? & Herr & ? & ? & Hp & _)].
      * by left.
      * right. split; [done|]. split; [|by rewrite Herr].
        destruct Hp as [->| [->| ->]]; auto.
  - rewrite (process_separation_unknown env _ _ _ w0 Hj). cbn [snd].
    split; [solve_extends|]. do 4 right. by exists t, l1, l2.
Qed.

Lemma step_summarized w w' : step w w' → step_summary w w'.
Proof.
  destruct 1.
  - by apply separate_audio_summary.
  - apply get_job_status_summary.
  - apply download_stem_summary.
  - apply delete_job_summary.
  - by apply run_task_summary.
  - split; [solve_extends|by left].
Qed.

(** * The invariant of the server *)

Lemma boot_empty data_dir f env :
  jobs (boot data_dir f env) = ∅ ∧ background_tasks (boot data_dir f env) = [].
Proof.
  unfold boot, lifespan, try_except, mbind, M_bind, bind, ext.
  destruct (get_model env), (model_to env), (model_eval env); done.
Qed.

Lemma server_inv_boot data_dir f env : server_inv (boot data_dir f env).
Proof.
  destruct (boot_empty data_dir f env) as [Hjobs Hbg].
  unfold server_inv. rewrite Hjobs, Hbg. split_and!.
  - intros id j. by rewrite lookup_empty.
  - intros t j Ht. by apply elem_of_nil in Ht.
  - constructor.
  - intros id [j Hj]. by rewrite lookup_empty in Hj.
  - intros t Ht. by apply elem_of_nil in Ht.
  - done.
Qed.

Lemma task_middle_NoDup (t : Task) l1 l2 :
  NoDup (task_job_id <$> l1 ++ t :: l2) →
  NoDup (task_job_id <$> l1 ++ l2)
  ∧ ∀ t', t' ∈ l1 ++ l2 → task_job_id t' ≠ task_job_id t.
Proof.
  rewrite !fmap_app, fmap_cons. intros Hnd.
  apply NoDup_app in Hnd as (Hl1 & Hdisj & Hl2).
  apply NoDup_cons in Hl2 as [Hnot Hl2]. split.
  - apply NoDup_app. split; [done|]. split; [|done].
    intros x Hx1 Hx2. apply (Hdisj x Hx1). by right.
  - intros t' Ht' Heq. apply elem_of_app in Ht' as [Ht'|Ht'].
    + apply (Hdisj (task_job_id t)); [|by left].
      apply list_elem_of_fmap. by exists t'.
    + apply Hnot. apply list_elem_of_fmap. by exists t'.
Qed.

Lemma worker_end_ok j j' :
  job_ok j → status j = "pending" → worker_end j j' → job_ok j'.
Proof.
  intros [(_ & _ & Herr & Hstems)|[(Hst & _)|(Hst & _)]] Hpending Hend;
    [|congruence..].
  destruct Hend as [(? & ? & He & ?)|(? & ? & ? & Hs)].
  - right. left. by rewrite He, Herr.
  - right. right. by rewrite Hs, Hstems.
Qed.

Lemma server_inv_step w w' : server_inv w → step_summary w w' → server_inv w'.
Proof.
  intros (Hok & Hpend & Hnd & Hids & Htids & Hsep) ((Hd & Hs & Htr) & Hstep).
  assert (∀ ev, ev ∈ trace w → ev ∈ trace w') as Hmem.
  { intros ev Hev. by eapply elem_of_prefix. }
  destruct Hstep as [(Hjobs & Hbg)
    |[(id & ip & od & Hfresh & Hnew & Hsep' & Hjobs & Hbg)
    |[(id & Hjobs & Hbg)
    |[(t & l1 & l2 & j & j' & Hbg & Hbg' & Hj & Hjobs & Hend & _)
     |(t & l1 & l2 & Hbg & Hbg' & Hj & Hjobs & _)]]]].
  - unfold server_inv. rewrite Hjobs, Hbg, Hs. split_and!; eauto.
  - assert (∀ t, t ∈ background_tasks w → task_job_id t ≠ id) as Hother.
    { intros t Ht Heq. apply Hfresh. rewrite <- Heq. by apply Htids. }
    unfold server_inv. rewrite Hjobs, Hbg, Hs. split_and!.
    + intros id0 j0. destruct (decide (id0 = id)) as [->|Hne].
      * rewrite lookup_insert_eq. intros [= <-]. by left.
      * rewrite lookup_insert_ne by done. apply Hok.
    + intros t j0 Ht. apply elem_of_app in Ht as [Ht|Ht].
      * rewrite lookup_insert_ne by (by apply not_eq_sym, Hother). by apply Hpend.
      * apply list_elem_of_singleton in Ht as ->. simpl.
        rewrite lookup_insert_eq. by intros [= <-].
    + rewrite fmap_app. apply NoDup_app. split; [done|]. split.
      * intros x Hx Hx'. apply list_elem_of_singleton in Hx' as ->.
        apply list_elem_of_fmap in Hx as (t & Heq & Ht). by apply (Hother t).
      * apply NoDup_singleton.
    + intros id0. destruct (decide (id0 = id)) as [->|Hne]; [done|].
      rewrite lookup_insert_ne by done. auto.
    + intros t Ht. apply elem_of_app in Ht as [Ht|Ht]; [auto|].
      by apply list_elem_of_singleton in Ht as ->.
    + done.
  - unfold server_inv. rewrite Hjobs, Hbg, Hs. split_and!; [| | | | |done].
    + intros id0 j0 Hj0. apply lookup_delete_Some in Hj0 as [_ Hj0]. eauto.
    + intros t j0 Ht Hj0. apply lookup_delete_Some in Hj0 as [_ Hj0]. eauto.
    + done.
    + intros id0 [j0 Hj0]. apply lookup_delete_Some in Hj0 as [_ Hj0]. eauto.
    + eauto.
  - rewrite Hbg in Hnd.
    destruct (task_middle_NoDup t l1 l2 Hnd) as [Hnd' Hother].
    assert (∀ t', t' ∈ l1 ++ l2 → t' ∈ background_tasks w) as Hsub.
    { intros t' Ht'. rewrite Hbg. apply elem_of_app in Ht' as [?|?];
        apply elem_of_app; [by left|by right; right]. }
    assert (t ∈ background_tasks w) as Ht.
    { rewrite Hbg. apply elem_of_app. right. by left. }
    unfold server_inv. rewrite Hjobs, Hbg', Hs. split_and!.
    + intros id0 j0. destruct (decide (id0 = task_job_id t)) as [->|Hne].
      * rewrite lookup_insert_eq. intros [= <-].
        eapply worker_end_ok; eauto.
      * rewrite lookup_insert_ne by done. apply Hok.
    + intros t' j0 Ht'.
      rewrite lookup_insert_ne by (by apply not_eq_sym, Hother).
      apply Hpend. by apply Hsub.
    + done.
    + intros id0. destruct (decide (id0 = task_job_id t)) as [->|Hne].
      * intros _. apply Hmem, Hids. by eauto.
      * rewrite lookup_insert_ne by done. auto.
    + auto.
    + intros _. apply Hsep. rewrite Hbg. by destruct l1.
  - rewrite Hbg in Hnd.
    destruct (task_middle_NoDup t l1 l2 Hnd) as [Hnd' Hother].
    assert (∀ t', t' ∈ l1 ++ l2 → t' ∈ background_tasks w) as Hsub.
    { intros t' Ht'. rewrite Hbg. apply elem_of_app in Ht' as [?|?];
        apply elem_of_app; [by left|by right; right]. }
    unfold server_inv. rewrite Hjobs, Hbg', Hs. split_and!; eauto.
    intros _. apply Hsep. rewrite Hbg. by destruct l1.
Qed.

Lemma server_inv_rtc w w' : server_inv w → rtc step w w' → server_inv w'.
Proof.
  intros Hinv Hsteps. induction Hsteps as [|w1 w2 w3 Hstep _ IH]; [done|].
  apply IH. eapply server_inv_step; [exact Hinv|by apply step_summarized].
Qed.

Lemma reachable_inv w : reachable w → server_inv w.
Proof.
  intros (data_dir & f & env & Hsteps).
  eapply server_inv_rtc; [apply server_inv_boot|exact Hsteps].
Qed.

(** * A record along the steps *)

Lemma evolves_trans j1 j2 j3 : evolves j1 j2 → evolves j2 j3 → evolves j1 j3.
Proof.
  intros [->|[Hp Hn]] [->|[Hp' Hn']]; [by left|by right|by right|congruence].
Qed.

Lemma step_evolves w w' id j j' :
  server_inv w → step_summary w w' →
  jobs w !! id = Some j → jobs w' !! id = Some j' → evolves j j'.
Proof.
  intros (Hok & Hpend & Hnd & Hids & Htids & Hsep) (_ & Hstep) Hj Hj'.
  destruct Hstep as [(Hjobs & Hbg)
    |[(id0 & ip & od & Hfresh & Hnew & Hsep' & Hjobs & Hbg)
    |[(id0 & Hjobs & Hbg)
    |[(t & l1 & l2 & j0 & j0' & Hbg & Hbg' & Hj0 & Hjobs & Hend & _)
     |(t & l1 & l2 & Hbg & Hbg' & Hj0 & Hjobs & _)]]]];
    rewrite Hjobs in Hj'.
  - left. congruence.
  - destruct (decide (id = id0)) as [->|Hne].
    + destruct Hfresh. apply Hids. by eauto.
    + rewrite lookup_insert_ne in Hj' by done. left. congruence.
  - apply lookup_delete_Some in Hj' as [_ Hj']. left. congruence.
  - destruct (decide (id = task_job_id t)) as [->|Hne].
    + rewrite lookup_insert_eq in Hj'. injection Hj' as <-.
      rewrite Hj in Hj0. injection Hj0 as <-.
      right. split.
      * apply (Hpend t); [|done]. rewrite Hbg. apply elem_of_app. right. by left.
      * destruct Hend as [(-> & _)|(-> & _)]; done.
    + rewrite lookup_insert_ne in Hj' by done. left. congruence.
  - left. congruence.
Qed.

Lemma step_absent w w' id :
  server_inv w → step_summary w w' →
  EvUuid4 id ∈ trace w → jobs w !! id = None → jobs w' !! id = None.
Proof.
  intros (Hok & Hpend & Hnd & Hids & Htids & Hsep) (_ & Hstep) Hid Hj.
  destruct Hstep as [(Hjobs & Hbg)
    |[(id0 & ip & od & Hfresh & Hnew & Hsep' & Hjobs & Hbg)
    |[(id0 & Hjobs & Hbg)
    |[(t & l1 & l2 & j0 & j0' & Hbg & Hbg' & Hj0 & Hjobs & Hend & _)
     |(t & l1 & l2 & Hbg & Hbg' & Hj0 & Hjobs & _)]]]];
    rewrite Hjobs; try done.
  - rewrite lookup_insert_ne; [done|]. by intros ->.
  - apply lookup_delete_None. by right.
  - rewrite lookup_insert_ne; [done|]. intros <-. congruence.
Qed.

Lemma rtc_extends w w' : rtc step w w' → extends w w'.
Proof.
  induction 1 as [|w1 w2 w3 Hstep _ IH]; [apply extends_refl|].
  eapply extends_trans; [|exact IH]. by apply step_summarized.
Qed.

Lemma rtc_absent w w' id :
  server_inv w → rtc step w w' →
  EvUuid4 id ∈ trace w → jobs w !! id = None → jobs w' !! id = None.
Proof.
  intros Hinv Hsteps. induction Hsteps as [|w1 w2 w3 Hstep _ IH]; [done|].
  intros Hid Hj. pose proof (step_summarized _ _ Hstep) as Hsum.
  apply IH.
  - by eapply server_inv_step.
  - destruct Hsum as [(_ & _ & Htr) _]. by eapply elem_of_prefix.
  - by eapply step_absent.
Qed.

Lemma rtc_evolves w w' id j j' :
  server_inv w → rtc step w w' →
  jobs w !! id = Some j → jobs w' !! id = Some j' → evolves j j'.
Proof.
  intros Hinv Hsteps. revert j.
  induction Hsteps as [|w1 w2 w3 Hstep Hrest IH]; intros j Hj Hj'.
  { left. congruence. }
  pose proof (step_summarized _ _ Hstep) as Hsum.
  pose proof (server_inv_step _ _ Hinv Hsum) as Hinv2.
  destruct (jobs w2 !! id) as [j2|] eqn:Hj2.
  - eapply evolves_trans.
    + exact (step_evolves w1 w2 id j j2 Hinv Hsum Hj Hj2).
    + by apply IH.
  - assert (jobs w3 !! id = None) as Hnone; [|congruence].
    eapply rtc_absent; [exact Hinv2|exact Hrest| |exact Hj2].
    destruct Hsum as [(_ & _ & Htr) _]. eapply elem_of_prefix; [|exact Htr].
    destruct Hinv as (_ & _ & _ & Hids & _). apply Hids. by eauto.
Qed.

Lemma evolves_progress_le j j' :
  job_ok j → job_ok j' → evolves j j' →
  progress_le (progress j) (progress j').
Proof.
  intros Hok Hok' [->|[Hpend Hnot]].
  - destruct Hok' as [(_ & -> & _)|[(_ & -> & _)|(_ & [->|[->| ->]] & _)]];
      reflexivity.
  - destruct Hok as [(_ & -> & _)|[(Hst & _)|(Hst & _)]]; [|congruence..].
    destruct Hok' as [(_ & -> & _)|[(_ & -> & _)|(_ & [->|[->| ->]] & _)]];
      reflexivity.
Qed.

Lemma float_0_ne_1 : 0.0%float ≠ 1.0%float.
Proof.
  intros H.
  assert (PrimFloat.eqb 0.0 1.0 = PrimFloat.eqb 1.0 1.0) as Heq by (by rewrite H).
  discriminate Heq.
Qed.

Lemma float_02_ne_1 : 0.2%float ≠ 1.0%float.
Proof.
  intros H.
  assert (PrimFloat.eqb 0.2 1.0 = PrimFloat.eqb 1.0 1.0) as Heq by (by rewrite H).
  discriminate Heq.
Qed.

Lemma float_08_ne_1 : 0.8%float ≠ 1.0%float.
Proof.
  intros H.
  assert (PrimFloat.eqb 0.8 1.0 = PrimFloat.eqb 1.0 1.0) as Heq by (by rewrite H).
  discriminate Heq.
Qed.

Lemma job_ok_progress_one j :
  job_ok j → (progress j = Some 1.0%float ↔ status j = "completed").
Proof.
  intros [(Hst & Hp & _)|[(Hst & Hp & _)|(Hst & Hp & _)]]; rewrite Hst.
  - split; [|done]. intros H1. exfalso. apply float_0_ne_1. congruence.
  - done.
  - split; [|done]. intros H1. exfalso. destruct Hp as [Hp|[Hp|Hp]].
    + apply float_0_ne_1. congruence.
    + apply float_02_ne_1. congruence.
    + apply float_08_ne_1. congruence.
Qed.

(** * When the body of the worker returns *)

Lemma bind_ret_inv {A B} (m : M A) (k : A → M B) w b w' :
  (m ≫= k) w = (Ret b, w') →
  ∃ a w1, m w = (Ret a, w1) ∧ k a w1 = (Ret b, w').
Proof.
  unfold mbind, M_bind, bind. destruct (m w) as [[a|e] w1]; [by eauto|done].
Qed.

Lemma ext_ret_inv {A} ev (r : outcome A) effect w a w' :
  ext ev r effect w = (Ret a, w') → r = Ret a.
Proof. unfold ext. destruct r; [by intros [= -> _]|done]. Qed.

Lemma save_stems_ret_inv env sep od separated names :
  ∀ i acc w m w',
    save_stems env sep od separated i names acc w = (Ret m, w') →
    saves_return env sep od separated i names.
Proof.
  induction names as [|n names IH]; intros i acc w m w' Hrun k n' Hk; [done|].
  cbn [save_stems] in Hrun.
  apply bind_ret_inv in Hrun as (audio & w1 & Hidx & Hrun).
  apply bind_ret_inv in Hrun as ([] & w2 & Hsave & Hrun).
  unfold index_source in Hidx.
  destruct (separated !! i) as [audio'|] eqn:Hi; [|done].
  injection Hidx as -> ->. apply ext_ret_inv in Hsave.
  destruct k as [|k].
  - injection Hk as <-. exists audio. by rewrite Nat.add_0_r.
  - replace (i + S k)%nat with (S i + k)%nat by lia.
    exact (IH _ _ _ _ _ Hrun k n' Hk).
Qed.

Lemma save_stems_returns env sep od separated names :
  ∀ i acc w,
    saves_return env sep od separated i names →
    save_stems env sep od separated i names acc w
    = (Ret (recorded_stems od names acc), saved od names w).
Proof.
  induction names as [|n names IH]; intros i acc w Hok; [done|].
  destruct (Hok 0%nat n eq_refl) as (audio & Hi & Hsave).
  rewrite Nat.add_0_r in Hi.
  cbn [save_stems]. unfold mbind, M_bind, bind, index_source. rewrite Hi.
  unfold mret, M_ret, ret, ext. fold (stem_file od n). rewrite Hsave.
  rewrite IH; [done|].
  intros k n' Hk. destruct (Hok (S k) n' Hk) as (audio' & Hi' & Hsave').
  exists audio'. by replace (S i + k)%nat with (i + S k)%nat by lia.
Qed.

Lemma normalize_ret_inv env sep waveform sample_rate w t w' :
  normalize env sep waveform sample_rate w = (Ret t, w') →
  t = normalized env sep waveform sample_rate
  ∧ (sample_rate ≠ samplerate sep → Resample_raises env = None).
Proof.
  unfold normalize, normalized. intros Hrun.
  apply bind_ret_inv in Hrun as (t' & w1 & Hres & Hrun).
  injection Hrun as <- _.
  case_bool_decide as Hrate.
  - apply ext_ret_inv in Hres. unfold Resample in Hres.
    destruct (Resample_raises env); [done|]. by injection Hres as <-.
  - by injection Hres as <- _.
Qed.

Lemma separation_body_returns env id ip od w j sep :
  jobs w !! id = Some j → separator w = Some sep →
  (∃ w', separation_body env id ip od w = (Ret tt, w'))
  ↔ pipeline_returns env sep ip od.
Proof.
  intros Hj Hsep. split.
  - intros (w' & Hrun). unfold separation_body in Hrun.
    apply bind_ret_inv in Hrun as ([] & w1 & H1 & Hrun).
    apply bind_ret_inv in Hrun as ([] & w2 & H2 & Hrun).
    apply bind_ret_inv in Hrun as (s & w3 & H3 & Hrun).
    assert (s = Some sep) as ->.
    { unfold get in H3. injection H3 as <- <-.
      unfold set_progress, setattr_job in H2.
      destruct (jobs w1 !! id); [|done]. injection H2 as <-.
      unfold set_status, setattr_job in H1. rewrite Hj in H1.
      by injection H1 as <-. }
    apply bind_ret_inv in Hrun as ([] & w4 & Himp & Hrun).
    apply ext_ret_inv in Himp.
    apply bind_ret_inv in Hrun as ([waveform sample_rate] & w5 & Hload & Hrun).
    apply ext_ret_inv in Hload.
    apply bind_ret_inv in Hrun as (t & w6 & Hnorm & Hrun).
    apply normalize_ret_inv in Hnorm as [-> Hres].
    apply bind_ret_inv in Hrun as ([] & w7 & Hdev & Hrun).
    apply ext_ret_inv in Hdev.
    apply bind_ret_inv in Hrun as ([] & w8 & _ & Hrun).
    apply bind_ret_inv in Hrun as (separated & w9 & Hmodel & Hrun).
    apply ext_ret_inv in Hmodel.
    apply bind_ret_inv in Hrun as ([] & w10 & _ & Hrun).
    apply bind_ret_inv in Hrun as ([] & w11 & Hmkdir & Hrun).
    apply ext_ret_inv in Hmkdir.
    apply bind_ret_inv in Hrun as (m & w12 & Hloop & Hrun).
    apply save_stems_ret_inv in Hloop.
    apply bind_ret_inv in Hrun as ([] & w13 & Hunlink & Hrun).
    apply ext_ret_inv in Hunlink.
    split; [done|]. exists waveform, sample_rate. split_and!; [done..|].
    exists separated. by split_and!.
  - intros (Himp & waveform & sample_rate & Hload & Hres & Hdev
            & separated & Hmodel & Hmkdir & Hloop & Hunlink).
    assert (∀ w0, normalize env sep waveform sample_rate w0
                  = (Ret (normalized env sep waveform sample_rate),
                     if bool_decide (sample_rate ≠ samplerate sep)
                     then set_fs (fs w0)
                            (log_event (EvResample sample_rate (samplerate sep)) w0)
                     else w0)) as Hnorm.
    { intros w0. unfold normalize, normalized, mbind, M_bind, bind.
      case_bool_decide as Hrate; [|done].
      unfold ext, Resample. by rewrite (Hres Hrate). }
    unfold separation_body, set_status, set_progress, set_stems.
    unfold mbind, M_bind, bind, setattr_job. rewrite Hj. cbn [jobs log_event set_jobs].
    rewrite lookup_insert_eq. unfold get. cbn [separator log_event set_jobs].
    rewrite Hsep, Himp. unfold ext at 1. rewrite Hload. unfold ext at 1.
    rewrite Hnorm, Hdev. unfold ext at 1.
    match goal with |- context [if ?b then _ else _] => destruct b end.
    all: cbn [jobs log_event set_jobs set_fs]; rewrite lookup_insert_eq;
      rewrite Hmodel; unfold ext at 1;
      cbn [jobs log_event set_jobs set_fs]; rewrite lookup_insert_eq;
      rewrite Hmkdir; unfold ext at 1;
      rewrite (save_stems_returns _ _ _ _ _ _ _ _ Hloop);
      rewrite Hunlink; unfold ext at 1;
      cbn [jobs log_event set_jobs set_fs]; rewrite saved_jobs;
      repeat (cbn [jobs log_event set_jobs set_fs]; rewrite lookup_insert_eq);
      by eexists.
Qed.

(** * Normalization of the audio *)

(** C7: the worker resamples the waveform to the model's sample rate exactly
    when the source's rate differs from it, and then brings the channels to
    two: a mono waveform is duplicated into two identical channels, a
    waveform of more than two channels is cut to its first two, and a
    two-channel waveform is passed unchanged. *)
Theorem C7_normalize env sep (waveform : Tensor) (sample_rate : Z) w :
  let rate := samplerate sep in
  let resampled := Resample_kernel env sample_rate rate <$> waveform in
  normalize env sep waveform sample_rate w
  = (if bool_decide (sample_rate = rate) then (Ret (ensure_stereo waveform), w)
     else match Resample_raises env with
          | Some e => (Raise e, log_event (EvResample sample_rate rate) w)
          | None => (Ret (ensure_stereo resampled),
                     set_fs (fs w) (log_event (EvResample sample_rate rate) w))
          end)
  ∧ length resampled = length waveform
  ∧ (∀ c : list float, ensure_stereo [c] = [c; c])
  ∧ (∀ t : Tensor, (2 < length t)%nat → ensure_stereo t = take 2 t)
  ∧ (∀ t : Tensor, length t = 2%nat → ensure_stereo t = t)
  ∧ (∀ t : Tensor, (1 ≤ length t)%nat → length (ensure_stereo t) = 2%nat).
Proof.
  intros rate resampled. split; [|split; [|split; [|split; [|split]]]].
  - unfold normalize, mbind, M_bind, bind, Resample. fold rate resampled.
    case_bool_decide as Hne; case_bool_decide as Heq;
      try done; try (by destruct Hne).
    unfold ext. by destruct (Resample_raises env).
  - apply length_fmap.
  - done.
  - intros t Ht. unfold ensure_stereo.
    case_bool_decide; [lia|]. by case_bool_decide.
  - intros t Ht. unfold ensure_stereo.
    case_bool_decide; [lia|]. case_bool_decide; [lia|done].
  - intros t Ht. unfold ensure_stereo.
    case_bool_decide as H1.
    + destruct t as [|c [|??]]; simpl in *; lia.
    + case_bool_decide as H2; [|lia]. rewrite length_take. lia.
Qed.

(** A waveform without any channel, which no decoded file has, is neither
    mono nor wider than stereo: it passes as it is. *)
Lemma ensure_stereo_no_channel : ensure_stereo [] = [].
Proof. reflexivity. Qed.

(** A mono recording at 22050 Hz for a model at 44100 Hz, and a recording of
    three channels at the model's rate. *)
Lemma C7_normalize_witness :
  (normalize example_worker example_model [[1.0%float]] 22050 example_boot).1
  = Ret [[1.0%float; 1.0%float]; [1.0%float; 1.0%float]]
  ∧ ensure_stereo [[1.0%float]; [2.0%float]; [3.0%float]]
    = [[1.0%float]; [2.0%float]]
  ∧ ensure_stereo [[1.0%float]; [2.0%float]] = [[1.0%float]; [2.0%float]]
  ∧ length (ensure_stereo [[1.0%float]; [2.0%float]; [3.0%float]]) = 2%nat.
Proof.
  destruct (C7_normalize example_worker example_model [[1.0%float]] 22050
              example_boot)
    as (Hrun & _ & _ & Hmany & Htwo & Hlen).
  split; [by rewrite Hrun|]. split; [apply Hmany; simpl; lia|].
  split; [apply Htwo; reflexivity|apply Hlen; simpl; lia].
Defined.

(** * Downloading a stem *)

(** C6: the download of a stem fails with 404 for an unknown job, with 400
    for a job that is not "completed", with 404 when the name is not among
    the recorded stems or the recorded file is not in storage; otherwise it
    returns the recorded file with media type audio/wav.  A failing download
    returns no file. *)
Theorem C6_download_stem id stem_name w :
  let raises e :=
    download_stem id stem_name w = (Raise e, log_event (EvRaise e) w) in
  (jobs w !! id = None → raises (HTTPException 404 "Job not found"))
  ∧ (∀ job, jobs w !! id = Some job → status job ≠ "completed" →
       raises (HTTPException 400 ("Job not completed: " +:+ status job)))
  ∧ (∀ job, jobs w !! id = Some job → status job = "completed" →
       (∀ m, stems job = Some m → m !! stem_name = None) →
       raises (HTTPException 404 ("Stem '" +:+ stem_name +:+ "' not found")))
  ∧ (∀ job m p, jobs w !! id = Some job → status job = "completed" →
       stems job = Some m → m !! stem_name = Some p →
       exists_ p (fs w) = false →
       raises (HTTPException 404 "Stem file not found"))
  ∧ (∀ job m p, jobs w !! id = Some job → status job = "completed" →
       stems job = Some m → m !! stem_name = Some p →
       exists_ p (fs w) = true →
       download_stem id stem_name w
       = (Ret (FileResponse p "audio/wav" (stem_name +:+ ".wav")), w)).
Proof.
  intros raises. unfold raises. rewrite download_stem_unfold.
  split; [by intros ->|].
  split.
  { intros job -> Hst. rewrite bool_decide_eq_true_2 by exact Hst. reflexivity. }
  split.
  { intros job -> Hst Hm. rewrite bool_decide_eq_false_2 by (by intros []).
    assert (stems job ≫= (.!! stem_name) = None) as Hnone.
    { destruct (stems job) as [m|]; [by apply Hm|done]. }
    by rewrite (bool_decide_eq_true_2 _ Hnone), orb_true_r. }
  split.
  - intros job m p -> Hst Hm Hp Hex.
    rewrite bool_decide_eq_false_2 by (by intros []).
    rewrite Hm, (not_stems_lookup m stem_name p Hp). simpl. rewrite Hp.
    rewrite (bool_decide_eq_false_2 (Some p = None)) by done.
    by rewrite Hex.
  - intros job m p -> Hst Hm Hp Hex.
    rewrite bool_decide_eq_false_2 by (by intros []).
    rewrite Hm, (not_stems_lookup m stem_name p Hp). simpl. rewrite Hp.
    rewrite (bool_decide_eq_false_2 (Some p = None)) by done.
    by rewrite Hex.
Qed.

(** * Submitting a file *)

(** C4: when the model is not loaded, Submit raises 503 before any call to
    the outside, and when reading the upload or writing it to storage fails,
    it raises 500; whenever Submit raises, no job is registered and no worker
    is dispatched. *)
Theorem C4_separate_audio_errors env file w :
  let input_path :=
    DATA_DIR w </> "input" </> (uuid4 env +:+ "_" +:+ filename file) in
  (separator w = None →
     separate_audio env file w
     = (Raise (HTTPException 503 "Model not loaded"),
        log_event (EvRaise (HTTPException 503 "Model not loaded")) w))
  ∧ (∀ e, separator w ≠ None →
       (read file = Raise e
        ∨ ∃ content, read file = Ret content
            ∧ (open_wb env input_path = Raise e
               ∨ open_wb env input_path = Ret tt
                 ∧ write env input_path content = Raise e)) →
       ∃ w', separate_audio env file w
             = (Raise (HTTPException 500 ("Failed to save file: " +:+ str e)), w')
           ∧ jobs w' = jobs w ∧ background_tasks w' = background_tasks w)
  ∧ (∀ e' w', separate_audio env file w = (Raise e', w') →
       jobs w' = jobs w ∧ background_tasks w' = background_tasks w
       ∧ (e' = HTTPException 503 "Model not loaded"
          ∨ ∃ e, e' = HTTPException 500 ("Failed to save file: " +:+ str e))).
Proof.
  intros input_path. rewrite separate_audio_unfold.
  split; [by intros ->|].
  destruct (separator w) as [sep|]; cbv zeta.
  2:{ split; [done|]. intros e' w' [= <- <-]. by eauto. }
  pose proof (staging_spec env file input_path
                (set_fs (fs w) (log_event (EvUuid4 (uuid4 env)) w))) as Hst.
  unfold wp in Hst. fold input_path.
  destruct (try_except _ _ _) as [[[]|e'] w2]; world_simpl.
  - destruct Hst as (_ & _ & _ & content & Hread & Hopen & Hwrite). split.
    + intros e _ [He|(c & Hc & [He|[_ He]])]; congruence.
    + by intros ??.
  - destruct Hst as (_ & Hjobs & Hbg & e0 & -> & Hwhy). split.
    + intros e _ He. exists w2. split; [|done].
      assert (e = e0) as -> by
        (destruct He as [He|(c & Hc & [He|[? He]])];
         destruct Hwhy as [Hw|(c' & Hc' & [Hw|[? Hw]])]; congruence).
      done.
    + intros e' w' [= <- <-]. by eauto.
Qed.

(** * Deleting a job *)

(** C5, as the code has it: DeleteJob raises 404 for an unknown id; for a
    known one it removes the output directory tree when there is one, and the
    absence of the directory is not an error, but a failure of the removal
    leaves DeleteJob with that exception and the entry in the store;
    otherwise the entry is removed, and after a DeleteJob that returned both
    GetStatus and a second DeleteJob of the id raise 404. *)
Theorem C5_delete_job env id w :
  let output_dir := DATA_DIR w </> "output" </> id in
  let not_found := HTTPException 404 "Job not found" in
  (jobs w !! id = None →
     delete_job env id w = (Raise not_found, log_event (EvRaise not_found) w))
  ∧ (is_Some (jobs w !! id) → exists_ output_dir (fs w) = false →
       ∃ w', delete_job env id w = (Ret (JobDeleted "deleted" id), w')
           ∧ jobs w' = delete id (jobs w) ∧ fs w' = fs w)
  ∧ (is_Some (jobs w !! id) → exists_ output_dir (fs w) = true →
       rmtree env output_dir = Ret tt →
       ∃ w', delete_job env id w = (Ret (JobDeleted "deleted" id), w')
           ∧ jobs w' = delete id (jobs w)
           ∧ fs w' = remove_tree output_dir (fs w))
  ∧ (∀ e, is_Some (jobs w !! id) → exists_ output_dir (fs w) = true →
       rmtree env output_dir = Raise e →
       ∃ w', delete_job env id w = (Raise e, w') ∧ jobs w' = jobs w)
  ∧ (∀ r w', delete_job env id w = (Ret r, w') →
       jobs w' !! id = None
       ∧ get_job_status id w'
         = (Raise not_found, log_event (EvRaise not_found) w')
       ∧ ∀ env', delete_job env' id w'
                 = (Raise not_found, log_event (EvRaise not_found) w')).
Proof.
  intros output_dir not_found. rewrite delete_job_unfold.
  subst output_dir. cbv zeta.
  split; [by intros ->|].
  split.
  { intros [job ->] ->. by eauto. }
  split.
  { intros [job ->] -> ->. by eauto. }
  split.
  { intros e [job ->] -> ->. by eauto. }
  intros r w' Hrun.
  assert (jobs w' !! id = None) as Hgone.
  { destruct (jobs w !! id); [|done].
    destruct (exists_ _ _); [destruct (rmtree env _) as [[]|e]; [|done]|];
      injection Hrun as <- <-; apply lookup_delete_eq. }
  split; [done|]. split.
  - by rewrite get_job_status_unfold, Hgone.
  - intros env'. by rewrite delete_job_unfold, Hgone.
Qed.

(** The removal of the tree takes the directory and all below it. *)
Lemma remove_tree_gone d p f :
  p = d ∨ under d p = true → p ∉ dirs (remove_tree d f).
Proof.
  unfold remove_tree. simpl. intros Hp Hin.
  apply elem_of_filter in Hin as [Hu Hin].
  destruct Hp as [->|Hp]; [set_solver|congruence].
Qed.

Lemma remove_tree_files_gone d p f :
  under d p = true → p ∉ files (remove_tree d f).
Proof.
  unfold remove_tree. simpl. intros Hp Hin.
  apply elem_of_filter in Hin as [Hu Hin]. congruence.
Qed.

(** * The failure boundary of the worker *)

(** C1: on a job of the store, whatever exception the pipeline of the worker
    raises, the worker returns: the job is marked "failed" with the message
    of that exception as its error, and the records of the other jobs are as
    they were. *)
Theorem C1_failure_boundary env id ip od w j :
  jobs w !! id = Some j →
  ∃ w', process_separation env id ip od w = (Ret tt, w')
    ∧ (∀ id', id' ≠ id → jobs w' !! id' = jobs w !! id')
    ∧ (∀ e wb, separation_body env id ip od w = (Raise e, wb) →
         ∃ j', jobs w' !! id = Some j'
             ∧ status j' = "failed" ∧ error j' = Some (str e)).
Proof.
  intros Hj.
  destruct (worker_summary env id ip od w j Hj)
    as (w' & j' & Hrun & _ & Hjobs & _ & _ & Hend).
  exists w'. split; [exact Hrun|]. split.
  - intros id' Hne. by rewrite Hjobs, lookup_insert_ne.
  - intros e wb Hbody. exists j'. rewrite Hjobs, lookup_insert_eq.
    split; [done|].
    destruct Hend as [(Hret & _)|(e' & wb' & p & Hraise & Hst & Herr & _)].
    + congruence.
    + rewrite Hbody in Hraise. by injection Hraise as -> ->.
Qed.

(** * The input artifact *)

(** C8: a run of the worker on a job of the store ends "completed" exactly
    when the model is loaded and every call of the pipeline to the outside
    returns, and "failed" otherwise.  On the run that ends "completed" the
    input file is gone and no other file is lost; it is removed right after
    the last stem is saved and right before the status is set, and nowhere
    before.  On a run that ends "failed" no file is lost, the input file
    among them, and the file system is untouched, so no output directory is
    made, when the failure comes before the checkpoint 0.8 that opens the
    saving of the stems. *)
Theorem C8_input_artifact env id ip od w j :
  jobs w !! id = Some j →
  ∃ w' j', process_separation env id ip od w = (Ret tt, w')
    ∧ jobs w' !! id = Some j'
    ∧ (status j' = "completed" ∨ status j' = "failed")
    ∧ (status j' = "completed"
       ↔ ∃ sep, separator w = Some sep ∧ pipeline_returns env sep ip od)
    ∧ (status j' = "completed" →
         (ip ∉ files (fs w'))
         ∧ files (fs w) ∖ {[ip]} ⊆ files (fs w')
         ∧ ∃ sep pre m, separator w = Some sep ∧ Forall quiet pre
             ∧ trace w' = trace w ++ pre
                          ++ (EvSave ∘ stem_file od <$> sources sep)
                          ++ [EvUnlink ip; EvSetStatus id "completed";
                              EvSetProgress id 1.0%float; EvSetStems id m])
    ∧ (status j' = "failed" →
         files (fs w) ⊆ files (fs w')
         ∧ (progress j' ≠ Some 0.8%float → fs w' = fs w)).
Proof.
  intros Hj.
  destruct (worker_summary env id ip od w j Hj)
    as (w' & j' & Hrun & _ & Hjobs & _ & _ & Hend).
  exists w', j'. split; [exact Hrun|].
  split; [by rewrite Hjobs, lookup_insert_eq|].
  destruct Hend as [(Hbody & Hret & Hst & _)
                   |(e & wb & p & Hbody & Hst & _ & _ & Hp & _ & Hfiles & Hfs)].
  - destruct Hret as (_ & sep & Hsep & _ & Hfiles & _ & pre & Hpre & _ & Htr).
    split; [by left|]. split.
    { split; [|done]. intros _. exists sep. split; [exact Hsep|].
      apply (separation_body_returns env id ip od w j sep Hj Hsep). by exists w'. }
    split; [|by rewrite Hst].
    intros _. split; [rewrite Hfiles; set_solver|].
    split; [rewrite Hfiles; set_solver|]. by eauto 10.
  - split; [by right|]. split.
    { rewrite Hst. split; [done|]. intros (sep & Hsep & Hok).
      apply (separation_body_returns env id ip od w j sep Hj Hsep) in Hok
        as (w'' & Hok).
      congruence. }
    split; [by rewrite Hst|].
    intros _. split; [done|]. intros Hne. apply Hfs. congruence.
Qed.

(** * The records of the store between the steps of the server *)

(** C2: in every state the server reaches, a record with status "failed" has
    its error set and no stems, a record with status "completed" has its
    stems set and no error, and a record with any other status has neither;
    error and stems are never both set. *)
Theorem C2_error_stems_by_status w id j :
  reachable w → jobs w !! id = Some j →
  (status j = "failed" → is_Some (error j) ∧ stems j = None)
  ∧ (status j = "completed" → is_Some (stems j) ∧ error j = None)
  ∧ (status j ≠ "failed" → status j ≠ "completed" →
       error j = None ∧ stems j = None)
  ∧ ¬ (is_Some (error j) ∧ is_Some (stems j)).
Proof.
  intros Hreach Hj.
  destruct (reachable_inv w Hreach) as (Hok & _).
  destruct (Hok id j Hj)
    as [(Hst & _ & He & Hs)|[(Hst & _ & He & Hs)|(Hst & _ & He & Hs)]];
    rewrite Hst; split_and!; try done.
  - rewrite He. by intros [[] _].
  - rewrite He. by intros [[] _].
  - rewrite Hs. by intros [_ []].
Qed.

(** C3: a record is created with progress 0.0; between two observations of
    one job in a run of the server, the earlier progress is at most the later
    one; the progress of a record is 1.0 exactly when its status is
    "completed"; and the values a worker assigns to the progress are, in
    order, the first ones of 0.0, 0.2, 0.8, 1.0, which increase. *)
Theorem C3_progress w w' id j j' :
  reachable w → rtc step w w' →
  jobs w !! id = Some j → jobs w' !! id = Some j' →
  progress_le (progress j) (progress j')
  ∧ (progress j = Some 1.0%float ↔ status j = "completed")
  ∧ (∀ env file r w1, separate_audio env file w = (Ret r, w1) →
       ∃ jn, jobs w1 !! uuid4 env = Some jn ∧ r = JobCreated (uuid4 env) "pending"
           ∧ status jn = "pending" ∧ progress jn = Some 0.0%float)
  ∧ (∀ env t l1 l2, background_tasks w = l1 ++ t :: l2 →
       ∃ evs, trace (run_task env t (set_background_tasks (l1 ++ l2) w)).2
              = trace w ++ evs
            ∧ progress_writes evs `prefix_of` [0.0; 0.2; 0.8; 1.0]%float)
  ∧ (PrimFloat.leb 0.0 0.2 = true ∧ PrimFloat.leb 0.2 0.8 = true
     ∧ PrimFloat.leb 0.8 1.0 = true).
Proof.
  intros Hreach Hsteps Hj Hj'.
  pose proof (reachable_inv w Hreach) as Hinv.
  pose proof (server_inv_rtc w w' Hinv Hsteps) as Hinv'.
  destruct Hinv as (Hok & Hrest). destruct Hinv' as (Hok' & _).
  split; [|split; [|split; [|split]]].
  - apply evolves_progress_le; [by eapply Hok|by eapply Hok'|].
    eapply rtc_evolves; [|exact Hsteps|exact Hj|exact Hj']. by split.
  - apply job_ok_progress_one. by eapply Hok.
  - intros env file r w1. rewrite separate_audio_unfold.
    destruct (separator w); [|done]. cbv zeta.
    destruct (try_except _ _ _) as [[[]|e] w2]; [|done].
    intros [= <- <-]. eexists. world_simpl. rewrite lookup_insert_eq. done.
  - intros env t l1 l2 Hbg. unfold run_task.
    set (w0 := set_background_tasks (l1 ++ l2) w).
    destruct (jobs w !! task_job_id t) as [j0|] eqn:Hj0.
    + destruct (worker_summary env (task_job_id t) (task_input_path t)
                  (task_output_dir t) w0 j0 Hj0)
        as (w1 & j1 & -> & _ & _ & _ & (evs & Htr & _ & Hwr) & _).
      by exists evs.
    + rewrite (process_separation_unknown env _ _ _ w0 Hj0).
      exists []. split; [by rewrite app_nil_r|]. by eexists.
  - by repeat split.
Qed.

(** * The model and the dispatched workers *)

(** C9: in every state the server reaches, a dispatched task finds the model
    loaded, the run of its worker goes through no [raise] of the application,
    so not through the one of "Model not loaded", and no step of the server
    changes [separator]. *)
Theorem C9_model_loaded_for_workers w t :
  reachable w → t ∈ background_tasks w →
  (∃ sep, separator w = Some sep)
  ∧ (∀ env l1 l2, background_tasks w = l1 ++ t :: l2 →
       ∃ evs, trace (run_task env t (set_background_tasks (l1 ++ l2) w)).2
              = trace w ++ evs
            ∧ Forall no_raise evs)
  ∧ (∀ w', rtc step w w' → separator w' = separator w).
Proof.
  intros Hreach Ht.
  destruct (reachable_inv w Hreach) as (_ & _ & _ & _ & _ & Hsep).
  assert (separator w ≠ None) as Hloaded.
  { apply Hsep. intros Hnil. rewrite Hnil in Ht. by apply elem_of_nil in Ht. }
  split; [|split].
  - destruct (separator w) as [sep|]; [by exists sep|done].
  - intros env l1 l2 Hbg. unfold run_task.
    set (w0 := set_background_tasks (l1 ++ l2) w).
    destruct (jobs w !! task_job_id t) as [j|] eqn:Hj.
    + destruct (worker_summary env (task_job_id t) (task_input_path t)
                  (task_output_dir t) w0 j Hj)
        as (w' & j' & -> & _ & _ & _ & (evs & Htr & Hevs & _) & _).
      exists evs. split; [exact Htr|]. by apply Hevs.
    + rewrite (process_separation_unknown env _ _ _ w0 Hj).
      exists []. split; [by rewrite app_nil_r|constructor].
  - intros w' Hsteps. by destruct (rtc_extends w w' Hsteps) as (_ & ? & _).
Qed.

(** Without a model the guard of the worker does fire: the job fails with
    the message of its [RuntimeError]. *)
Lemma model_not_loaded_fires env id ip od w j :
  jobs w !! id = Some j → separator w = None →
  ∃ w' j', process_separation env id ip od w = (Ret tt, w')
    ∧ jobs w' !! id = Some j' ∧ status j' = "failed"
    ∧ error j' = Some "Model not loaded"
    ∧ EvRaise (RuntimeError "Model not loaded") ∈ trace w'.
Proof.
  intros Hj Hsep.
  unfold process_separation, try_except, separation_body, mbind, M_bind, bind,
    set_status, set_progress, set_error, setattr_job, get, raise_.
  cbv beta. rewrite Hj. world_simpl. rewrite lookup_insert_eq. world_simpl.
  rewrite Hsep. world_simpl. rewrite !insert_insert_eq, lookup_insert_eq.
  world_simpl. rewrite lookup_insert_eq. world_simpl.
  eexists _, _. split; [reflexivity|]. world_simpl.
  rewrite lookup_insert_eq. split; [reflexivity|]. split; [done|].
  split; [done|]. rewrite !elem_of_app. left. left. right.
  by apply list_elem_of_singleton.
Qed.

(** * The file a download serves *)

(** C10: a download that returns serves the path stored under the stem name
    in the record's stems: the stem name is the key of the lookup and the
    name proposed for the download, never a part of the path; and since a
    completed record never changes while it is in the store, that path is
    the one recorded when the job completed. *)
Theorem C10_download_serves_recorded_path :
  (∀ id stem_name w r w',
     download_stem id stem_name w = (Ret r, w') →
     ∃ job m p, jobs w !! id = Some job ∧ status job = "completed"
       ∧ stems job = Some m ∧ m !! stem_name = Some p
       ∧ r = FileResponse p "audio/wav" (stem_name +:+ ".wav")
       ∧ exists_ p (fs w) = true ∧ w' = w)
  ∧ (∀ w w' w'' id stem_name job r,
       reachable w → jobs w !! id = Some job → status job = "completed" →
       rtc step w w' →
       download_stem id stem_name w' = (Ret r, w'') →
       ∃ m p, stems job = Some m ∧ m !! stem_name = Some p
         ∧ r = FileResponse p "audio/wav" (stem_name +:+ ".wav")).
Proof.
  assert (∀ id stem_name w r w',
     download_stem id stem_name w = (Ret r, w') →
     ∃ job m p, jobs w !! id = Some job ∧ status job = "completed"
       ∧ stems job = Some m ∧ m !! stem_name = Some p
       ∧ r = FileResponse p "audio/wav" (stem_name +:+ ".wav")
       ∧ exists_ p (fs w) = true ∧ w' = w) as Hserve.
  { intros id stem_name w r w'. rewrite download_stem_unfold.
    destruct (jobs w !! id) as [job|]; [|done].
    case_bool_decide as Hst; [done|].
    destruct (not_stems _ || _); [done|].
    destruct (stems job) as [m|] eqn:Hm; [|done]. simpl.
    destruct (m !! stem_name) as [p|] eqn:Hp; [|done].
    destruct (exists_ p (fs w)) eqn:Hex; [|done]. simpl.
    intros [= <- <-]. by exists job, m, p. }
  split; [exact Hserve|].
  intros w w' w'' id stem_name job r Hreach Hj Hst Hsteps Hrun.
  destruct (Hserve _ _ _ _ _ Hrun) as (job' & m & p & Hj' & _ & Hm & Hp & -> & _).
  assert (job' = job) as ->.
  { destruct (rtc_evolves w w' id job job' (reachable_inv w Hreach) Hsteps Hj Hj')
      as [->|[Hpend _]]; [done|]. rewrite Hst in Hpend. discriminate. }
  by exists m, p.
Qed.

(** * The example run *)

Lemma example_boot_trace : trace example_boot = [EvGetModel; EvModelTo; EvModelEval].
Proof. reflexivity. Qed.

Lemma example_pending_reachable : reachable example_pending.
Proof.
  exists "/app/data", (mkFS ∅ ∅), example_startup.
  apply rtc_once, step_separate_audio.
  fold example_boot. rewrite example_boot_trace. simpl uuid4.
  intros H. repeat (apply elem_of_cons in H as [H|H]; [discriminate H|]).
  by apply elem_of_nil in H.
Qed.

Lemma example_pending_tasks :
  background_tasks example_pending = [] ++ example_task :: [].
Proof. reflexivity. Qed.

Lemma example_completed_step : rtc step example_pending example_completed.
Proof.
  apply rtc_once.
  exact (step_run_task example_worker example_task [] [] example_pending
           example_pending_tasks).
Qed.

Lemma example_failed_step : rtc step example_pending example_failed.
Proof.
  apply rtc_once.
  exact (step_run_task example_undecodable example_task [] [] example_pending
           example_pending_tasks).
Qed.

Lemma example_completed_reachable : reachable example_completed.
Proof.
  destruct example_pending_reachable as (d & f & env & Hsteps).
  exists d, f, env. etrans; [exact Hsteps|apply example_completed_step].
Qed.

Lemma example_failed_reachable : reachable example_failed.
Proof.
  destruct example_pending_reachable as (d & f & env & Hsteps).
  exists d, f, env. etrans; [exact Hsteps|apply example_failed_step].
Qed.

(** The whole run of the completed job, as the server logs it. *)
Example example_completed_trace :
  trace example_completed
  = [EvGetModel; EvModelTo; EvModelEval;
     EvUuid4 "job-1"; EvRead "song.wav";
     EvOpen "/app/data/input/job-1_song.wav";
     EvWrite "/app/data/input/job-1_song.wav";
     EvJobsInsert "job-1"; EvAddTask example_task;
     EvSetStatus "job-1" "processing"; EvSetProgress "job-1" 0.0%float;
     EvImport; EvLoad "/app/data/input/job-1_song.wav";
     EvResample 22050 44100; EvToDevice; EvSetProgress "job-1" 0.2%float;
     EvApplyModel [[0.5; 0.5; 0.25; 0.25]; [0.5; 0.5; 0.25; 0.25]]%float;
     EvSetProgress "job-1" 0.8%float; EvMkdir "/app/data/output/job-1";
     EvSave "/app/data/output/job-1/drums.wav";
     EvSave "/app/data/output/job-1/bass.wav";
     EvSave "/app/data/output/job-1/other.wav";
     EvSave "/app/data/output/job-1/vocals.wav";
     EvUnlink "/app/data/input/job-1_song.wav";
     EvSetStatus "job-1" "completed"; EvSetProgress "job-1" 1.0%float;
     EvSetStems "job-1"
       (recorded_stems "/app/data/output/job-1" (sources example_model) ∅)].
Proof. vm_compute. reflexivity. Qed.

(** A file that does not decode: the job fails with the decoder's message,
    the input file stays and no output directory is made. *)
Example example_decode_failure :
  jobs example_failed !! "job-1" = Some example_failed_record
  ∧ fs example_failed = fs example_pending
  ∧ exists_ "/app/data/input/job-1_song.wav" (fs example_failed) = true
  ∧ exists_ "/app/data/output/job-1" (fs example_failed) = false.
Proof. vm_compute. by repeat split. Qed.

(** * The claims on the example run *)

Lemma C1_failure_boundary_witness :
  jobs example_pending !! "job-1" = Some example_record
  ∧ ∃ w' j', process_separation example_undecodable "job-1"
               "/app/data/input/job-1_song.wav" "/app/data/output/job-1"
               example_pending = (Ret tt, w')
      ∧ jobs w' !! "job-1" = Some j'
      ∧ status j' = "failed" ∧ error j' = Some "Failed to decode audio".
Proof.
  split; [reflexivity|].
  destruct (C1_failure_boundary example_undecodable "job-1"
              "/app/data/input/job-1_song.wav" "/app/data/output/job-1"
              example_pending example_record eq_refl) as (w' & Hrun & _ & Hfail).
  destruct (Hfail (RuntimeError "Failed to decode audio")
              (separation_body example_undecodable "job-1"
                 "/app/data/input/job-1_song.wav" "/app/data/output/job-1"
                 example_pending).2)
    as (j' & Hj' & Hst & Herr); [vm_compute; reflexivity|].
  by exists w', j'.
Defined.

Lemma C2_error_stems_by_status_witness :
  reachable example_failed
  ∧ jobs example_failed !! "job-1" = Some example_failed_record
  ∧ (status example_failed_record = "failed" →
       is_Some (error example_failed_record)
       ∧ stems example_failed_record = None).
Proof.
  split; [exact example_failed_reachable|]. split; [reflexivity|].
  exact (proj1 (C2_error_stems_by_status example_failed "job-1"
                  example_failed_record example_failed_reachable eq_refl)).
Defined.

Lemma C3_progress_witness :
  reachable example_pending
  ∧ rtc step example_pending example_completed
  ∧ jobs example_pending !! "job-1" = Some example_record
  ∧ jobs example_completed !! "job-1" = Some example_completed_record
  ∧ progress_le (progress example_record) (progress example_completed_record).
Proof.
  split; [exact example_pending_reachable|].
  split; [exact example_completed_step|].
  split; [reflexivity|].
  assert (jobs example_completed !! "job-1" = Some example_completed_record)
    as Hj' by (vm_compute; reflexivity).
  split; [exact Hj'|].
  exact (proj1 (C3_progress example_pending example_completed "job-1"
                  example_record example_completed_record
                  example_pending_reachable example_completed_step
                  eq_refl Hj')).
Defined.

Lemma C4_separate_audio_errors_witness :
  separator (module_init "/app/data" (mkFS ∅ ∅)) = None
  ∧ (separate_audio example_submit example_file
       (module_init "/app/data" (mkFS ∅ ∅))).1
    = Raise (HTTPException 503 "Model not loaded")
  ∧ separator example_boot ≠ None
  ∧ ∃ w', separate_audio example_disk_full example_file example_boot
          = (Raise (HTTPException 500
                      "Failed to save file: [Errno 28] No space left on device"),
             w')
        ∧ jobs w' = jobs example_boot
        ∧ background_tasks w' = background_tasks example_boot.
Proof.
  split; [reflexivity|]. split.
  { rewrite (proj1 (C4_separate_audio_errors example_submit example_file
                      (module_init "/app/data" (mkFS ∅ ∅))) eq_refl).
    reflexivity. }
  assert (separator example_boot ≠ None) as Hsep by (vm_compute; discriminate).
  split; [exact Hsep|].
  apply (proj1 (proj2 (C4_separate_audio_errors example_disk_full example_file
                         example_boot))
           (Exception "OSError" "[Errno 28] No space left on device") Hsep).
  right. exists []. split; [reflexivity|]. right. split; reflexivity.
Defined.

(** The claim C5 as it is written fails on a removal that is refused: the
    job is known, DeleteJob leaves with the [PermissionError] of [rmtree],
    and the entry is still in the store. *)
Lemma C5_delete_job_counterexample :
  let run := delete_job example_rmtree_refused "job-1" example_completed in
  is_Some (jobs example_completed !! "job-1")
  ∧ exists_ "/app/data/output/job-1" (fs example_completed) = true
  ∧ run.1 = Raise (Exception "PermissionError" "[Errno 13] Permission denied")
  ∧ jobs run.2 !! "job-1" = Some example_completed_record.
Proof. vm_compute. split; [by eexists|]. by repeat split. Qed.

Lemma C5_delete_job_witness :
  is_Some (jobs example_completed !! "job-1")
  ∧ exists_ (DATA_DIR example_completed </> "output" </> "job-1")
            (fs example_completed) = true
  ∧ (∃ w', delete_job example_rmtree "job-1" example_completed
           = (Ret (JobDeleted "deleted" "job-1"), w')
         ∧ jobs w' = delete "job-1" (jobs example_completed)
         ∧ fs w' = remove_tree (DATA_DIR example_completed </> "output" </> "job-1")
                     (fs example_completed))
  ∧ (∃ w', delete_job example_rmtree_refused "job-1" example_completed
           = (Raise (Exception "PermissionError" "[Errno 13] Permission denied"),
              w')
         ∧ jobs w' = jobs example_completed).
Proof.
  assert (is_Some (jobs example_completed !! "job-1")) as Hknown
    by (vm_compute; by eexists).
  assert (exists_ (DATA_DIR example_completed </> "output" </> "job-1")
                  (fs example_completed) = true) as Hdir
    by (vm_compute; reflexivity).
  split; [exact Hknown|]. split; [exact Hdir|]. split.
  - exact (proj1 (proj2 (proj2 (C5_delete_job example_rmtree "job-1"
                                  example_completed)))
             Hknown Hdir eq_refl).
  - exact (proj1 (proj2 (proj2 (proj2 (C5_delete_job example_rmtree_refused
                                         "job-1" example_completed))))
             _ Hknown Hdir eq_refl).
Defined.

Lemma C6_download_stem_witness :
  jobs example_boot !! "job-1" = None
  ∧ (download_stem "job-1" "vocals" example_boot).1
    = Raise (HTTPException 404 "Job not found")
  ∧ jobs example_pending !! "job-1" = Some example_record
  ∧ status example_record ≠ "completed"
  ∧ (download_stem "job-1" "vocals" example_pending).1
    = Raise (HTTPException 400 "Job not completed: pending")
  ∧ jobs example_completed !! "job-1" = Some example_completed_record
  ∧ download_stem "job-1" "vocals" example_completed
    = (Ret (FileResponse "/app/data/output/job-1/vocals.wav" "audio/wav"
              "vocals.wav"),
       example_completed).
Proof.
  split; [reflexivity|]. split.
  { rewrite (proj1 (C6_download_stem "job-1" "vocals" example_boot) eq_refl).
    reflexivity. }
  split; [reflexivity|].
  assert (status example_record ≠ "completed") as Hst by discriminate.
  split; [exact Hst|]. split.
  { rewrite (proj1 (proj2 (C6_download_stem "job-1" "vocals" example_pending))
               example_record eq_refl Hst).
    reflexivity. }
  assert (jobs example_completed !! "job-1" = Some example_completed_record)
    as Hj by (vm_compute; reflexivity).
  split; [exact Hj|].
  apply (proj2 (proj2 (proj2 (proj2
           (C6_download_stem "job-1" "vocals" example_completed))))
           example_completed_record
           (recorded_stems "/app/data/output/job-1" (sources example_model) ∅)
           "/app/data/output/job-1/vocals.wav" Hj eq_refl eq_refl).
  - vm_compute. reflexivity.
  - vm_compute. reflexivity.
Defined.

(** The example worker has every call return. *)
Lemma example_worker_returns :
  pipeline_returns example_worker example_model
    "/app/data/input/job-1_song.wav" "/app/data/output/job-1".
Proof.
  split; [reflexivity|]. exists [[0.5; 0.25]]%float, 22050.
  split; [reflexivity|]. split; [done|]. split; [reflexivity|].
  eexists. split; [reflexivity|]. split; [reflexivity|]. split; [|reflexivity].
  intros [|[|[|[|k]]]] n Hk; [..|done];
    injection Hk as <-; eexists; (split; [reflexivity|reflexivity]).
Qed.

Lemma C8_input_artifact_witness :
  jobs example_pending !! "job-1" = Some example_record
  ∧ (∃ w' j', process_separation example_worker "job-1"
                "/app/data/input/job-1_song.wav" "/app/data/output/job-1"
                example_pending = (Ret tt, w')
       ∧ jobs w' !! "job-1" = Some j'
       ∧ status j' = "completed"
       ∧ "/app/data/input/job-1_song.wav" ∉ files (fs w'))
  ∧ (∃ w' j', process_separation example_undecodable "job-1"
                "/app/data/input/job-1_song.wav" "/app/data/output/job-1"
                example_pending = (Ret tt, w')
       ∧ jobs w' !! "job-1" = Some j'
       ∧ status j' = "failed"
       ∧ "/app/data/input/job-1_song.wav" ∈ files (fs w')).
Proof.
  split; [reflexivity|]. split.
  - destruct (C8_input_artifact example_worker "job-1"
                "/app/data/input/job-1_song.wav" "/app/data/output/job-1"
                example_pending example_record eq_refl)
      as (w' & j' & Hrun & Hj' & _ & Hiff & Hdone & _).
    assert (status j' = "completed") as Hst.
    { apply Hiff. exists example_model. split; [reflexivity|].
      exact example_worker_returns. }
    exists w', j'. split; [exact Hrun|]. split; [exact Hj'|].
    split; [exact Hst|]. exact (proj1 (Hdone Hst)).
  - destruct (C8_input_artifact example_undecodable "job-1"
                "/app/data/input/job-1_song.wav" "/app/data/output/job-1"
                example_pending example_record eq_refl)
      as (w' & j' & Hrun & Hj' & Hst & Hiff & _ & Hfail).
    assert (status j' = "failed") as Hfailed.
    { destruct Hst as [Hst|Hst]; [|exact Hst].
      apply Hiff in Hst as (sep & _ & _ & wf & sr & Hload & _).
      discriminate Hload. }
    exists w', j'. split; [exact Hrun|]. split; [exact Hj'|].
    split; [exact Hfailed|].
    apply (proj1 (Hfail Hfailed)).
    apply (bool_decide_unpack _). vm_compute. exact I.
Defined.

Lemma C9_model_loaded_for_workers_witness :
  reachable example_pending
  ∧ example_task ∈ background_tasks example_pending
  ∧ ∃ sep, separator example_pending = Some sep.
Proof.
  assert (example_task ∈ background_tasks example_pending) as Ht.
  { rewrite example_pending_tasks. by left. }
  split; [exact example_pending_reachable|]. split; [exact Ht|].
  exact (proj1 (C9_model_loaded_for_workers example_pending example_task
                  example_pending_reachable Ht)).
Defined.

Lemma C10_download_serves_recorded_path_witness :
  reachable example_completed
  ∧ jobs example_completed !! "job-1" = Some example_completed_record
  ∧ download_stem "job-1" "vocals" example_completed
    = (Ret (FileResponse "/app/data/output/job-1/vocals.wav" "audio/wav"
              "vocals.wav"),
       example_completed)
  ∧ ∃ m p, stems example_completed_record = Some m ∧ m !! "vocals" = Some p
      ∧ FileResponse "/app/data/output/job-1/vocals.wav" "audio/wav" "vocals.wav"
        = FileResponse p "audio/wav" ("vocals" +:+ ".wav").
Proof.
  assert (jobs example_completed !! "job-1" = Some example_completed_record)
    as Hj by (vm_compute; reflexivity).
  assert (download_stem "job-1" "vocals" example_completed
          = (Ret (FileResponse "/app/data/output/job-1/vocals.wav" "audio/wav"
                    "vocals.wav"),
             example_completed)) as Hrun by (vm_compute; reflexivity).
  split; [exact example_completed_reachable|]. split; [exact Hj|].
  split; [exact Hrun|].
  exact (proj2 C10_download_serves_recorded_path
           example_completed example_completed example_completed
           "job-1" "vocals" example_completed_record _
           example_completed_reachable Hj eq_refl (rtc_refl _ _) Hrun).
Defined.

(** * Further properties of the handlers *)

Lemma prefix_nil (s : string) : String.prefix "" s = true.
Proof. by destruct s. Qed.

Lemma prefix_cons a b (s1 s2 : string) :
  String.prefix (String a s1) (String b s2)
  = if Ascii.ascii_dec a b then String.prefix s1 s2 else false.
Proof. reflexivity. Qed.

Lemma prefix_slash_app (s r : string) :
  s ≠ "" → String.prefix "/" (s +:+ r) = String.prefix "/" s.
Proof.
  destruct s as [|c s]; [done|]. intros _.
  change (String c s +:+ r) with (String c (s +:+ r)).
  rewrite !prefix_cons. destruct (Ascii.ascii_dec _ _); [|done].
  by rewrite !prefix_nil.
Qed.

Lemma staged_name_relative (id fn : string) :
  String.prefix "/" id = false → String.prefix "/" (id +:+ "_" +:+ fn) = false.
Proof.
  destruct id as [|c s] eqn:Hid; [done|]. intros H.
  by rewrite prefix_slash_app.
Qed.

Lemma append_cons c (s t : string) : String c s +:+ t = String c (s +:+ t).
Proof. reflexivity. Qed.

Lemma append_nil_l (t : string) : EmptyString +:+ t = t.
Proof. reflexivity. Qed.

Lemma append_assoc (a b c : string) : (a +:+ b) +:+ c = a +:+ (b +:+ c).
Proof.
  induction a as [|x a IH]; [done|]. by rewrite !append_cons, IH.
Qed.

Lemma slash_free_cons c s :
  slash_free (String c s) = true
  ↔ String c EmptyString ≠ "/" ∧ slash_free s = true.
Proof. cbn [slash_free]. by rewrite andb_true_iff, bool_decide_eq_true. Qed.

Lemma slash_free_app (a b : string) :
  slash_free a → slash_free b → slash_free (a +:+ b).
Proof.
  intros Ha Hb. induction a as [|x a IH]; [done|].
  apply Is_true_true, slash_free_cons in Ha as [Hx Ha].
  rewrite append_cons. apply Is_true_true, slash_free_cons.
  split; [done|]. by apply Is_true_true, IH, Is_true_true.
Qed.

Lemma slash_free_relative (s : string) :
  slash_free s → String.prefix "/" s = false.
Proof.
  destruct s as [|c s]; [done|]. intros [Hc _]%Is_true_true%slash_free_cons.
  rewrite prefix_cons. destruct (Ascii.ascii_dec _ c) as [<-|]; [done|done].
Qed.

Lemma component_slash_free (s : string) : component s → slash_free s.
Proof. by intros [H _]%andb_True. Qed.

Lemma component_relative (s : string) :
  component s → String.prefix "/" s = false.
Proof. intros H. by apply slash_free_relative, component_slash_free. Qed.

Lemma prefix_append_cancel (a b c : string) :
  String.prefix (a +:+ b) (a +:+ c) = String.prefix b c.
Proof.
  induction a as [|x a IH]; [done|].
  rewrite !append_cons, prefix_cons. by destruct (Ascii.ascii_dec x x).
Qed.

Lemma prefix_slash_free (a b r : string) :
  slash_free a → slash_free b →
  String.prefix (a +:+ "/") (b +:+ "/" +:+ r) = true → a = b.
Proof.
  revert b. induction a as [|x a IH]; intros [|y b] Ha Hb; [done|..];
    rewrite ?append_cons, ?append_nil_l, prefix_cons.
  - apply Is_true_true, slash_free_cons in Hb as [Hy _].
    destruct (Ascii.ascii_dec _ y) as [<-|]; [done|done].
  - apply Is_true_true, slash_free_cons in Ha as [Hx _].
    destruct (Ascii.ascii_dec x _) as [->|]; [done|done].
  - apply Is_true_true, slash_free_cons in Ha as [_ Ha].
    apply Is_true_true, slash_free_cons in Hb as [_ Hb].
    destruct (Ascii.ascii_dec x y) as [->|]; [|done].
    intros H. f_equal. apply IH; [by apply Is_true_true..|done].
Qed.

Lemma path_join_output (d : string) : d </> "output" = d +:+ "/output".
Proof. reflexivity. Qed.

Lemma path_join_input (d : string) : d </> "input" = d +:+ "/input".
Proof. reflexivity. Qed.

Lemma path_join_relative (p q : string) :
  String.prefix "/" q = false → p </> q = p +:+ "/" +:+ q.
Proof. unfold path_join. by intros ->. Qed.

(** What is saved for another job is not below the output directory of a
    job, and neither is what is staged. *)
Lemma under_other_job (d id id2 r : string) :
  component id → component id2 → id ≠ id2 → slash_free r →
  under (d </> "output" </> id) (d </> "output" </> id2 </> r) = false.
Proof.
  intros Hid Hid2 Hne Hr. unfold under.
  rewrite path_join_output.
  rewrite !path_join_relative
    by first [by apply component_relative|by apply slash_free_relative].
  rewrite !append_assoc, !prefix_append_cancel.
  destruct (String.prefix _ _) eqn:Hp; [|done].
  apply prefix_slash_free in Hp; [done|by apply component_slash_free..].
Qed.

Lemma under_input (d id x : string) :
  component id → slash_free x →
  under (d </> "output" </> id) (d </> "input" </> x) = false.
Proof.
  intros Hid Hx. unfold under.
  rewrite path_join_output, path_join_input.
  rewrite !path_join_relative
    by first [by apply component_relative|by apply slash_free_relative].
  rewrite !append_assoc, !prefix_append_cancel. reflexivity.
Qed.

Lemma example_data_dir_normal : normal_path "/app/data".
Proof.
  exists ["app"; "data"]. split; [done|]. split; [|done]. by repeat constructor.
Qed.

(** X1: with [DATA_DIR] a normal path, an id and a file name without a
    slash, the model loaded and the upload read and written, Submit returns
    the new id with status "pending", stores under that id a pending record
    with progress 0.0 and nothing else changed in the store, creates the
    input file [DATA_DIR/input/id_filename], and appends one task for it
    after the tasks already dispatched, with the output directory
    [DATA_DIR/output/id]; a GetStatus right after returns that record. *)
Theorem X1_separate_audio_registers env file w sep content :
  let id := uuid4 env in
  let input_path := DATA_DIR w +:+ "/input/" +:+ id +:+ "_" +:+ filename file in
  let output_dir := DATA_DIR w +:+ "/output/" +:+ id in
  let record := mkJobStatus id "pending" (Some 0.0%float) None None in
  normal_path (DATA_DIR w) → component id → slash_free (filename file) →
  separator w = Some sep →
  read file = Ret content →
  open_wb env input_path = Ret tt →
  write env input_path content = Ret tt →
  ∃ w', separate_audio env file w = (Ret (JobCreated id "pending"), w')
    ∧ jobs w' = <[id := record]> (jobs w)
    ∧ background_tasks w'
      = background_tasks w ++ [mkTask id input_path output_dir]
    ∧ fs w' = add_file input_path (fs w)
    ∧ separator w' = separator w ∧ DATA_DIR w' = DATA_DIR w
    ∧ get_job_status id w' = (Ret (JobRecord record), w').
Proof.
  intros id input_path output_dir record _ Hid Hfn Hsep Hread Hopen Hwrite.
  assert (DATA_DIR w </> "input" </> (id +:+ "_" +:+ filename file) = input_path)
    as Hip.
  { rewrite path_join_input, path_join_relative
      by (by apply staged_name_relative, component_relative).
    by rewrite append_assoc. }
  assert (DATA_DIR w </> "output" </> id = output_dir) as Hod.
  { rewrite path_join_output, path_join_relative by (by apply component_relative).
    by rewrite append_assoc. }
  rewrite separate_audio_unfold, Hsep. cbv zeta. fold id. rewrite Hip, Hod.
  unfold try_except, mbind, M_bind, bind, ext.
  rewrite Hread, Hopen, Hwrite. world_simpl.
  eexists. split; [reflexivity|]. world_simpl.
  split_and!; try done.
  rewrite get_job_status_unfold. world_simpl. by rewrite lookup_insert_eq.
Qed.

Lemma same_state_log ev w : same_state w (log_event ev w).
Proof. by repeat split. Qed.

Lemma same_state_refl w : same_state w w.
Proof. by repeat split. Qed.

Lemma get_job_status_same id w : same_state w (get_job_status id w).2.
Proof.
  rewrite get_job_status_unfold.
  destruct (jobs w !! id); [apply same_state_refl|apply same_state_log].
Qed.

Lemma download_stem_same id stem_name w :
  same_state w (download_stem id stem_name w).2.
Proof.
  rewrite download_stem_unfold.
  repeat case_match; first [apply same_state_refl | apply same_state_log].
Qed.

(** X2: the four endpoints that answer a question, GetStatus, the download
    of a stem, health and info, change neither the globals, nor the store,
    nor the file system, nor the dispatched tasks, whatever they are asked
    and whether they return or raise. *)
Theorem X2_queries_change_nothing cfg id stem_name w :
  same_state w (get_job_status id w).2
  ∧ same_state w (download_stem id stem_name w).2
  ∧ same_state w (health_check cfg w).2
  ∧ same_state w (plugin_info cfg w).2.
Proof.
  split_and!.
  - apply get_job_status_same.
  - apply download_stem_same.
  - apply same_state_refl.
  - apply same_state_refl.
Qed.

(** With a model loaded, Submit never answers 503. *)
Lemma separate_audio_loaded env file w :
  separator w ≠ None →
  (separate_audio env file w).1 ≠ Raise (HTTPException 503 "Model not loaded").
Proof.
  intros Hsep. rewrite separate_audio_unfold.
  destruct (separator w) as [sep|]; [|done]. cbv zeta.
  set (ip := DATA_DIR w </> "input" </> (uuid4 env +:+ "_" +:+ filename file)).
  pose proof (staging_spec env file ip
                (set_fs (fs w) (log_event (EvUuid4 (uuid4 env)) w))) as Hst.
  unfold wp in Hst. destruct (try_except _ _ _) as [[[]|e] w2]; [done|].
  destruct Hst as (_ & _ & _ & e0 & -> & _). cbn [fst]. discriminate.
Qed.

(** X3: health returns, and its [model_loaded] tells what Submit will do:
    when it is false every Submit is answered 503 "Model not loaded", and
    when it is true no Submit is. *)
Theorem X3_health_tells_submit cfg w :
  ∃ h, health_check cfg w = (Ret h, w)
    ∧ health_status h = "healthy"
    ∧ (model_loaded h = false →
         ∀ env file, (separate_audio env file w).1
                     = Raise (HTTPException 503 "Model not loaded"))
    ∧ (model_loaded h = true →
         ∀ env file, (separate_audio env file w).1
                     ≠ Raise (HTTPException 503 "Model not loaded")).
Proof.
  eexists. split; [reflexivity|]. split; [reflexivity|]. cbn [model_loaded].
  split.
  - intros Hh env file. apply bool_decide_eq_false in Hh.
    rewrite separate_audio_unfold.
    destruct (separator w); [by destruct Hh|done].
  - intros Hh env file. apply bool_decide_eq_true in Hh.
    by apply separate_audio_loaded.
Qed.

Lemma X3_health_tells_submit_witness :
  ∃ h, health_check example_config example_boot = (Ret h, example_boot)
    ∧ model_loaded h = true
    ∧ (separate_audio example_disk_full example_file example_boot).1
      ≠ Raise (HTTPException 503 "Model not loaded").
Proof.
  destruct (X3_health_tells_submit example_config example_boot)
    as (h & Hrun & _ & _ & Hloaded).
  assert (model_loaded h = true) as Hh.
  { cbv [health_check mbind M_bind bind get mret M_ret ret] in Hrun.
    injection Hrun as <-. vm_compute. reflexivity. }
  exists h. split; [exact Hrun|]. split; [exact Hh|].
  exact (Hloaded Hh example_disk_full example_file).
Defined.


Lemma X1_separate_audio_registers_witness :
  separator example_boot = Some example_model
  ∧ ∃ w', separate_audio example_submit example_file example_boot
          = (Ret (JobCreated "job-1" "pending"), w')
        ∧ jobs w' = <["job-1" := example_record]> (jobs example_boot)
        ∧ background_tasks w' = [example_task]
        ∧ fs w' = add_file "/app/data/input/job-1_song.wav" (fs example_boot)
        ∧ get_job_status "job-1" w' = (Ret (JobRecord example_record), w').
Proof.
  split; [reflexivity|].
  destruct (X1_separate_audio_registers example_submit example_file example_boot
              example_model [] example_data_dir_normal I I
              eq_refl eq_refl eq_refl eq_refl)
    as (w' & Hrun & Hjobs & Htasks & Hfs & _ & _ & Hget).
  exists w'. split; [exact Hrun|]. split; [exact Hjobs|].
  split; [exact Htasks|]. split; [exact Hfs|exact Hget].
Defined.

(** X5: DeleteJob of a job whose task has not run yet leaves the task
    dispatched.  When the task runs afterwards, the first subscript of the
    worker raises [KeyError], its [except] clause raises it again, and the
    exception leaves the worker with nothing changed: no record comes back
    and the input file is not removed. *)
Theorem X5_delete_before_worker denv env t l1 l2 w r w1 :
  background_tasks w = l1 ++ t :: l2 →
  delete_job denv (task_job_id t) w = (Ret r, w1) →
  background_tasks w1 = l1 ++ t :: l2
  ∧ run_task env t (set_background_tasks (l1 ++ l2) w1)
    = (Raise (KeyError (task_job_id t)), set_background_tasks (l1 ++ l2) w1)
  ∧ (task_input_path t ∈ files (fs w) →
     under (DATA_DIR w </> "output" </> task_job_id t) (task_input_path t) = false →
     task_input_path t ∈ files (fs w1)).
Proof.
  intros Hbg. rewrite delete_job_unfold.
  destruct (jobs w !! task_job_id t) as [j|] eqn:Hj; [|done]. cbv zeta.
  assert (∀ w1', jobs w1' = delete (task_job_id t) (jobs w) →
            run_task env t (set_background_tasks (l1 ++ l2) w1')
            = (Raise (KeyError (task_job_id t)),
               set_background_tasks (l1 ++ l2) w1')) as Hrun.
  { intros w1' Hjobs. apply process_separation_unknown. cbn [jobs set_background_tasks].
    rewrite Hjobs. apply lookup_delete_eq. }
  destruct (exists_ _ _); [destruct (rmtree denv _) as [[]|e]; [|done]|];
    intros [= <- <-]; (split; [exact Hbg|]); (split; [by apply Hrun|]);
    world_simpl; [|done].
  intros Hin Hout. unfold remove_tree. cbn [files].
  apply elem_of_filter. by split.
Qed.

Lemma X5_delete_before_worker_witness :
  background_tasks example_pending = [] ++ example_task :: []
  ∧ delete_job example_rmtree "job-1" example_pending
    = (Ret (JobDeleted "deleted" "job-1"), example_deleted)
  ∧ background_tasks example_deleted = [] ++ example_task :: []
  ∧ run_task example_worker example_task
      (set_background_tasks ([] ++ []) example_deleted)
    = (Raise (KeyError "job-1"), set_background_tasks ([] ++ []) example_deleted).
Proof.
  assert (delete_job example_rmtree (task_job_id example_task) example_pending
          = (Ret (JobDeleted "deleted" "job-1"), example_deleted)) as Hdel
    by (vm_compute; reflexivity).
  split; [reflexivity|]. split; [exact Hdel|].
  destruct (X5_delete_before_worker example_rmtree example_worker example_task
              [] [] example_pending _ _ eq_refl Hdel) as (Hbg & Hrun & _).
  by split.
Defined.

(** X12: after a run of the worker whose pipeline raised, the download of
    any stem of that job is refused with 400 "Job not completed: failed":
    what the failed run has written is not served. *)
Theorem X12_failed_job_serves_nothing env id ip od w j e wb stem_name :
  jobs w !! id = Some j →
  separation_body env id ip od w = (Raise e, wb) →
  (download_stem id stem_name (process_separation env id ip od w).2).1
  = Raise (HTTPException 400 "Job not completed: failed").
Proof.
  intros Hj Hbody.
  destruct (worker_summary env id ip od w j Hj)
    as (w' & j' & Hrun & _ & Hjobs & _ & _ & Hend).
  rewrite Hrun. cbn [snd].
  destruct Hend as [(Hret & _)|(e' & wb' & p & _ & Hst & _)]; [congruence|].
  rewrite download_stem_unfold, Hjobs, lookup_insert_eq, Hst.
  rewrite bool_decide_eq_true_2 by done. reflexivity.
Qed.

Lemma X12_failed_job_serves_nothing_witness :
  jobs example_pending !! "job-1" = Some example_record
  ∧ (download_stem "job-1" "vocals"
       (process_separation example_undecodable "job-1"
          "/app/data/input/job-1_song.wav" "/app/data/output/job-1"
          example_pending).2).1
    = Raise (HTTPException 400 "Job not completed: failed").
Proof.
  split; [reflexivity|].
  apply (X12_failed_job_serves_nothing example_undecodable "job-1"
           "/app/data/input/job-1_song.wav" "/app/data/output/job-1"
           example_pending example_record
           (RuntimeError "Failed to decode audio")
           (separation_body example_undecodable "job-1"
              "/app/data/input/job-1_song.wav" "/app/data/output/job-1"
              example_pending).2 "vocals" eq_refl).
  vm_compute. reflexivity.
Defined.

(** X13: when the upload is opened for writing and the write then fails,
    Submit answers 500 and registers nothing, but the file it has opened is
    left in the input directory; when already the open fails, the file
    system is as it was. *)
Theorem X13_failed_staging_leaves_file env file w sep content e :
  let input_path :=
    DATA_DIR w </> "input" </> (uuid4 env +:+ "_" +:+ filename file) in
  separator w = Some sep →
  read file = Ret content →
  (open_wb env input_path = Ret tt → write env input_path content = Raise e →
   ∃ w', separate_audio env file w
         = (Raise (HTTPException 500 ("Failed to save file: " +:+ str e)), w')
       ∧ fs w' = add_file input_path (fs w)
       ∧ jobs w' = jobs w ∧ background_tasks w' = background_tasks w)
  ∧ (open_wb env input_path = Raise e →
     ∃ w', separate_audio env file w
           = (Raise (HTTPException 500 ("Failed to save file: " +:+ str e)), w')
         ∧ fs w' = fs w
         ∧ jobs w' = jobs w ∧ background_tasks w' = background_tasks w).
Proof.
  intros input_path Hsep Hread.
  rewrite separate_audio_unfold, Hsep. cbv zeta. fold input_path.
  unfold try_except, mbind, M_bind, bind, ext, raise_. rewrite Hread.
  split.
  - intros -> ->. world_simpl. by eexists.
  - intros ->. world_simpl. by eexists.
Qed.

Lemma X13_failed_staging_leaves_file_witness :
  separator example_boot = Some example_model
  ∧ ∃ w', separate_audio example_disk_full example_file example_boot
          = (Raise (HTTPException 500
                      "Failed to save file: [Errno 28] No space left on device"),
             w')
        ∧ fs w' = add_file "/app/data/input/job-2_song.wav" (fs example_boot)
        ∧ jobs w' = jobs example_boot.
Proof.
  split; [reflexivity|].
  destruct (proj1 (X13_failed_staging_leaves_file example_disk_full example_file
                     example_boot example_model []
                     (Exception "OSError" "[Errno 28] No space left on device")
                     eq_refl eq_refl) eq_refl eq_refl)
    as (w' & Hrun & Hfs & Hjobs & _).
  by exists w'.
Defined.

(** X15: on any world, whether the job is in the store or not, a run of the
    worker neither adds nor removes a key of the store, and changes neither
    [separator], nor [DATA_DIR], nor the dispatched tasks. *)
Theorem X15_worker_keeps_keys env id ip od w :
  let w' := (process_separation env id ip od w).2 in
  dom (jobs w') = dom (jobs w) ∧ frame w w'.
Proof.
  intros w'. unfold w'.
  destruct (jobs w !! id) as [j|] eqn:Hj.
  - destruct (worker_summary env id ip od w j Hj)
      as (w1 & j' & -> & Hfr & Hjobs & _).
    cbn [snd]. split; [|exact Hfr].
    rewrite Hjobs, dom_insert_L.
    assert (id ∈ dom (jobs w)) by (apply elem_of_dom; eauto). set_solver.
  - rewrite (process_separation_unknown env id ip od w Hj). by repeat split.
Qed.

(** * From the worker to the download and to the deletion *)

Lemma recorded_stems_lookup od names :
  ∀ acc n,
    recorded_stems od names acc !! n
    = if decide (n ∈ names) then Some (stem_file od n) else acc !! n.
Proof.
  induction names as [|a names IH]; intros acc n.
  - rewrite decide_False; [done|]. intros Hin. by apply elem_of_nil in Hin.
  - change (recorded_stems od (a :: names) acc)
      with (recorded_stems od names (<[a := stem_file od a]> acc)).
    rewrite IH. destruct (decide (n ∈ names)) as [Hin|Hnin].
    + rewrite decide_True; [done|]. by right.
    + destruct (decide (n = a)) as [->|Hne].
      * rewrite lookup_insert_eq, decide_True; [done|]. by left.
      * rewrite lookup_insert_ne by done. rewrite decide_False; [done|].
        intros Hin. apply elem_of_cons in Hin as [?|?]; done.
Qed.

(** What a run that ended "completed" has left. *)
Lemma completed_run env id ip od w j w' j' :
  jobs w !! id = Some j →
  process_separation env id ip od w = (Ret tt, w') →
  jobs w' !! id = Some j' → status j' = "completed" →
  body_returned id ip od j w w'.
Proof.
  intros Hj Hrun Hj' Hst.
  destruct (worker_summary env id ip od w j Hj)
    as (w1 & j1 & Hrun1 & _ & Hjobs & _ & _ & Hend).
  rewrite Hrun in Hrun1. injection Hrun1 as <-.
  rewrite Hjobs, lookup_insert_eq in Hj'. injection Hj' as <-.
  destruct Hend as [(_ & Hret & _)|(e & wb & p & _ & Hst' & _)]; [done|].
  congruence.
Qed.

(** X6: after a run of the worker that ended "completed", the download of
    every name in the model's sources returns the file
    [output_dir/name.wav], provided that file is not the input file the
    worker has just removed, and the download of any other name is answered
    404. *)
Theorem X6_completed_job_serves_sources env id ip od w j w' j' sep stem_name :
  jobs w !! id = Some j → separator w = Some sep →
  process_separation env id ip od w = (Ret tt, w') →
  jobs w' !! id = Some j' → status j' = "completed" →
  (stem_name ∈ sources sep → stem_file od stem_name ≠ ip →
     download_stem id stem_name w'
     = (Ret (FileResponse (stem_file od stem_name) "audio/wav"
               (stem_name +:+ ".wav")), w'))
  ∧ (stem_name ∉ sources sep →
       (download_stem id stem_name w').1
       = Raise (HTTPException 404 ("Stem '" +:+ stem_name +:+ "' not found"))).
Proof.
  intros Hj Hsep Hrun Hj' Hst.
  destruct (completed_run env id ip od w j w' j' Hj Hrun Hj' Hst)
    as (_ & sep' & Hsep' & Hjobs & Hfiles & _).
  rewrite Hsep in Hsep'. injection Hsep' as <-. cbv zeta in Hjobs.
  rewrite download_stem_unfold, Hjobs, lookup_insert_eq. cbn [status stems].
  rewrite bool_decide_eq_false_2 by (by intros []).
  cbn [mbind option_bind]. rewrite recorded_stems_lookup, lookup_empty.
  split.
  - intros Hin Hne. rewrite decide_True by done.
    rewrite (not_stems_lookup _ stem_name (stem_file od stem_name))
      by (by rewrite recorded_stems_lookup, decide_True).
    rewrite (bool_decide_eq_false_2 (Some _ = None)) by done. cbn [orb].
    assert (exists_ (stem_file od stem_name) (fs w') = true) as ->; [|done].
    apply bool_decide_eq_true. left. rewrite Hfiles.
    apply elem_of_difference. split; [|by rewrite elem_of_singleton].
    apply elem_of_union. right. apply elem_of_list_to_set.
    apply list_elem_of_fmap. by exists stem_name.
  - intros Hnin. rewrite decide_False by done.
    rewrite (bool_decide_eq_true_2 (None = None)) by done.
    by rewrite orb_true_r.
Qed.

Lemma X6_completed_job_serves_sources_witness :
  jobs (set_background_tasks ([] ++ []) example_pending) !! "job-1"
  = Some example_record
  ∧ separator (set_background_tasks ([] ++ []) example_pending)
    = Some example_model
  ∧ download_stem "job-1" "bass" example_completed
    = (Ret (FileResponse "/app/data/output/job-1/bass.wav" "audio/wav" "bass.wav"),
       example_completed)
  ∧ (download_stem "job-1" "piano" example_completed).1
    = Raise (HTTPException 404 "Stem 'piano' not found").
Proof.
  assert (process_separation example_worker "job-1"
            "/app/data/input/job-1_song.wav" "/app/data/output/job-1"
            (set_background_tasks ([] ++ []) example_pending)
          = (Ret tt, example_completed)) as Hrun
    by (vm_compute; reflexivity).
  assert (jobs example_completed !! "job-1" = Some example_completed_record)
    as Hj' by (vm_compute; reflexivity).
  split; [reflexivity|]. split; [reflexivity|]. split.
  - apply (proj1 (X6_completed_job_serves_sources example_worker "job-1"
                    "/app/data/input/job-1_song.wav" "/app/data/output/job-1"
                    (set_background_tasks ([] ++ []) example_pending)
                    example_record example_completed
                    example_completed_record example_model "bass"
                    eq_refl eq_refl Hrun Hj' eq_refl)).
    + vm_compute. right. by left.
    + vm_compute. discriminate.
  - apply (proj2 (X6_completed_job_serves_sources example_worker "job-1"
                    "/app/data/input/job-1_song.wav" "/app/data/output/job-1"
                    (set_background_tasks ([] ++ []) example_pending)
                    example_record example_completed
                    example_completed_record example_model "piano"
                    eq_refl eq_refl Hrun Hj' eq_refl)).
    vm_compute. intros H.
    repeat (apply elem_of_cons in H as [H|H]; [discriminate H|]).
    by apply elem_of_nil in H.
Defined.

Lemma prefix_append_l (a b c : string) :
  String.prefix b c = true → String.prefix (a +:+ b) (a +:+ c) = true.
Proof.
  intros H. induction a as [|x a IH]; [exact H|].
  change (String x a +:+ b) with (String x (a +:+ b)).
  change (String x a +:+ c) with (String x (a +:+ c)).
  rewrite prefix_cons. by destruct (Ascii.ascii_dec x x).
Qed.

Lemma under_join (d q : string) :
  String.prefix "/" q = false → under d (d </> q) = true.
Proof.
  intros Hq. unfold under, path_join. rewrite Hq.
  apply prefix_append_l.
  clear Hq. by destruct q.
Qed.

Lemma stem_name_relative (n : string) :
  String.prefix "/" n = false → String.prefix "/" (n +:+ ".wav") = false.
Proof.
  intros Hn. destruct n as [|c s] eqn:E; [done|].
  by rewrite prefix_slash_app.
Qed.

(** X7: with [DATA_DIR] a normal path, an id and names of the model's
    sources without a slash, after a run of the worker that ended
    "completed" with the output directory [DATA_DIR/output/id] that Submit
    gives it, a DeleteJob whose removal of the tree succeeds returns, and
    then the record, the output directory and the file of every stem are
    gone, while the stems of the other jobs and the staged inputs are
    kept. *)
Theorem X7_delete_removes_outputs env denv id ip w j w' j' sep :
  let od := DATA_DIR w </> "output" </> id in
  normal_path (DATA_DIR w) → component id →
  (∀ n, n ∈ sources sep → slash_free n) →
  jobs w !! id = Some j → separator w = Some sep →
  process_separation env id ip od w = (Ret tt, w') →
  jobs w' !! id = Some j' → status j' = "completed" →
  rmtree denv od = Ret tt →
  ∃ w'', delete_job denv id w' = (Ret (JobDeleted "deleted" id), w'')
    ∧ jobs w'' !! id = None
    ∧ (od ∉ dirs (fs w''))
    ∧ (∀ n, n ∈ sources sep → exists_ (stem_file od n) (fs w'') = false)
    ∧ (∀ id2 n, component id2 → id2 ≠ id → slash_free n →
         stem_file (DATA_DIR w </> "output" </> id2) n ∈ files (fs w') →
         stem_file (DATA_DIR w </> "output" </> id2) n ∈ files (fs w''))
    ∧ (∀ x, slash_free x →
         DATA_DIR w </> "input" </> x ∈ files (fs w') →
         DATA_DIR w </> "input" </> x ∈ files (fs w'')).
Proof.
  intros od _ Hid Hnames Hj Hsep Hrun Hj' Hst Hrm.
  destruct (completed_run env id ip od w j w' j' Hj Hrun Hj' Hst)
    as ((Hd & _) & sep' & _ & _ & Hfiles & Hdirs & _).
  assert (exists_ od (fs w') = true) as Hex.
  { apply bool_decide_eq_true. right. rewrite Hdirs. set_solver. }
  rewrite delete_job_unfold, Hj'. cbv zeta. rewrite Hd. fold od.
  rewrite Hex, Hrm. eexists. split; [reflexivity|]. world_simpl.
  split; [apply lookup_delete_eq|].
  assert (∀ p, under od p = true → exists_ p (remove_tree od (fs w')) = false)
    as Hgone.
  { intros p Hp. apply bool_decide_eq_false. intros [Hin|Hin].
    - by apply (remove_tree_files_gone od p (fs w')).
    - apply (remove_tree_gone od p (fs w')); [by right|done]. }
  assert (∀ p, p ∈ files (fs w') → under od p = false →
            p ∈ files (remove_tree od (fs w'))) as Hkept.
  { intros p Hp Hout. unfold remove_tree. cbn [files].
    apply elem_of_filter. by split. }
  split_and!.
  - apply (remove_tree_gone od od (fs w')). by left.
  - intros n Hn. apply Hgone, under_join.
    by apply stem_name_relative, slash_free_relative, Hnames.
  - intros id2 n Hid2 Hne Hn Hin. apply Hkept; [done|].
    apply under_other_job; [done|done|done|]. by apply slash_free_app.
  - intros x Hx Hin. apply Hkept; [done|]. by apply under_input.
Qed.

Lemma example_model_slash_free n :
  n ∈ sources example_model → slash_free n.
Proof.
  intros Hn. repeat (apply elem_of_cons in Hn as [->|Hn]; [exact I|]).
  by apply elem_of_nil in Hn.
Qed.

Lemma X7_delete_removes_outputs_witness :
  rmtree example_rmtree "/app/data/output/job-1" = Ret tt
  ∧ ∃ w'', delete_job example_rmtree "job-1" example_completed
           = (Ret (JobDeleted "deleted" "job-1"), w'')
         ∧ jobs w'' !! "job-1" = None
         ∧ exists_ "/app/data/output/job-1/vocals.wav" (fs w'') = false.
Proof.
  assert (process_separation example_worker "job-1"
            "/app/data/input/job-1_song.wav"
            (DATA_DIR (set_background_tasks ([] ++ []) example_pending)
               </> "output" </> "job-1")
            (set_background_tasks ([] ++ []) example_pending)
          = (Ret tt, example_completed)) as Hrun
    by (vm_compute; reflexivity).
  assert (jobs example_completed !! "job-1" = Some example_completed_record)
    as Hj' by (vm_compute; reflexivity).
  split; [reflexivity|].
  destruct (X7_delete_removes_outputs example_worker example_rmtree "job-1"
              "/app/data/input/job-1_song.wav"
              (set_background_tasks ([] ++ []) example_pending)
              example_record example_completed example_completed_record
              example_model example_data_dir_normal I example_model_slash_free
              eq_refl eq_refl Hrun Hj' eq_refl eq_refl)
    as (w'' & Hdel & Hgone & _ & Hstems & _).
  exists w''. split; [exact Hdel|]. split; [exact Hgone|].
  apply (Hstems "vocals").
  vm_compute. do 3 right. by left.
Defined.

(** * The channels *)

(** X14: bringing the channels to two is idempotent, and the channels it
    gives are among the first two of the waveform it is given. *)
Theorem X14_ensure_stereo_idempotent (waveform : Tensor) :
  ensure_stereo (ensure_stereo waveform) = ensure_stereo waveform
  ∧ ∀ c, c ∈ ensure_stereo waveform → c ∈ take 2 waveform.
Proof.
  unfold ensure_stereo.
  destruct waveform as [|c1 [|c2 [|c3 rest]]]; simpl.
  - split; [done|]. by intros c.
  - split; [done|]. intros c Hc. apply elem_of_cons in Hc as [->|Hc]; [by left|].
    exact Hc.
  - split; [done|]. by intros c.
  - split; [done|]. by intros c.
Qed.

(** * The loop over the stems *)

Lemma save_stems_run env sep od separated names :
  (∀ p a r, torchaudio_save env p a r = Ret tt) →
  ∀ i acc w,
    ((length names + i ≤ length separated)%nat →
       save_stems env sep od separated i names acc w
       = (Ret (recorded_stems od names acc), saved od names w))
    ∧ ((i ≤ length separated)%nat → (length separated < i + length names)%nat →
         ∃ e, save_stems env sep od separated i names acc w
              = (Raise e, saved od (take (length separated - i) names) w)).
Proof.
  intros Hsave. induction names as [|n names IH]; intros i acc w.
  { split; [done|]. simpl. lia. }
  cbn [save_stems]. unfold mbind, M_bind, bind, index_source.
  destruct (separated !! i) as [audio|] eqn:Hi.
  - apply lookup_lt_Some in Hi as Hlt.
    unfold mret, M_ret, ret, ext. rewrite Hsave.
    set (w1 := set_fs _ _).
    destruct (IH (S i) (<[n := od </> (n +:+ ".wav")]> acc) w1) as [IHret IHraise].
    split.
    + intros Hlen. simpl in Hlen. rewrite IHret by lia. reflexivity.
    + intros _ Hlen. simpl in Hlen.
      destruct IHraise as (e & He); [lia..|]. exists e.
      unfold mbind, M_bind, bind in He. rewrite He.
      replace (length separated - i)%nat with (S (length separated - S i)) by lia.
      reflexivity.
  - apply lookup_ge_None in Hi as Hge. split.
    + simpl. lia.
    + intros Hle _. replace (length separated - i)%nat with 0%nat by lia.
      by eexists.
Qed.

(** X16: the loop over the stems follows the names of the model's sources.
    When every write succeeds and the model has returned at least as many
    tensors as there are names, the loop records every name with its file
    and leaves the further tensors aside; when it has returned fewer, the
    loop saves the stems there are tensors for and then raises. *)
Theorem X16_save_stems_bounds env sep od separated w :
  (∀ p a r, torchaudio_save env p a r = Ret tt) →
  ((length (sources sep) ≤ length separated)%nat →
     save_stems env sep od separated 0 (sources sep) ∅ w
     = (Ret (recorded_stems od (sources sep) ∅), saved od (sources sep) w))
  ∧ ((length separated < length (sources sep))%nat →
       ∃ e, save_stems env sep od separated 0 (sources sep) ∅ w
            = (Raise e, saved od (take (length separated) (sources sep)) w)).
Proof.
  intros Hsave.
  destruct (save_stems_run env sep od separated (sources sep) Hsave 0 ∅ w)
    as [Hret Hraise].
  split.
  - intros Hlen. apply Hret. lia.
  - intros Hlen. destruct Hraise as (e & He); [lia..|].
    exists e. by rewrite Nat.sub_0_r in He.
Qed.

Lemma X16_save_stems_bounds_witness :
  (length example_short_output < length (sources example_model))%nat
  ∧ ∃ e, save_stems example_worker example_model "/app/data/output/job-1"
           example_short_output 0 (sources example_model) ∅ example_pending
         = (Raise e, saved "/app/data/output/job-1" ["drums"] example_pending).
Proof.
  assert (length example_short_output < length (sources example_model))%nat
    as Hlen by (simpl; lia).
  split; [exact Hlen|].
  exact (proj2 (X16_save_stems_bounds example_worker example_model
                  "/app/data/output/job-1" example_short_output example_pending
                  (λ _ _ _, eq_refl)) Hlen).
Defined.

(** * Further invariants of the server *)

(** X8: between two steps of the server the status of a record is
    "pending", "completed" or "failed", never "processing", which the worker
    sets and leaves within its one step; and a record that is no longer
    pending stays as it is for as long as it is in the store. *)
Theorem X8_final_records_are_frozen w id j :
  reachable w → jobs w !! id = Some j →
  (status j = "pending" ∨ status j = "completed" ∨ status j = "failed")
  ∧ status j ≠ "processing"
  ∧ (status j ≠ "pending" →
       ∀ w' j', rtc step w w' → jobs w' !! id = Some j' → j' = j).
Proof.
  intros Hreach Hj. pose proof (reachable_inv w Hreach) as Hinv.
  destruct Hinv as (Hok & Hrest).
  split_and!.
  - destruct (Hok id j Hj) as [(-> & _)|[(-> & _)|(-> & _)]]; auto.
  - destruct (Hok id j Hj) as [(-> & _)|[(-> & _)|(-> & _)]]; discriminate.
  - intros Hst w' j' Hsteps Hj'.
    destruct (rtc_evolves w w' id j j' (conj Hok Hrest) Hsteps Hj Hj')
      as [->|[Hpend _]]; done.
Qed.

Lemma X8_final_records_are_frozen_witness :
  reachable example_failed
  ∧ jobs example_failed !! "job-1" = Some example_failed_record
  ∧ status example_failed_record ≠ "processing"
  ∧ ∀ j', jobs example_failed !! "job-1" = Some j' → j' = example_failed_record.
Proof.
  destruct (X8_final_records_are_frozen example_failed "job-1"
              example_failed_record example_failed_reachable eq_refl)
    as (_ & Hnot & Hfrozen).
  split; [exact example_failed_reachable|]. split; [reflexivity|].
  split; [exact Hnot|]. intros j'.
  apply (Hfrozen ltac:(discriminate) example_failed j' (rtc_refl _ _)).
Defined.

(** X9: an id that was in the store and is no longer there is never in the
    store again: Submit does not give the id of a deleted job to a new
    one. *)
Theorem X9_deleted_id_never_returns w w1 w2 id j :
  reachable w → jobs w !! id = Some j →
  rtc step w w1 → jobs w1 !! id = None →
  rtc step w1 w2 → jobs w2 !! id = None.
Proof.
  intros Hreach Hj Hsteps1 Hgone Hsteps2.
  pose proof (reachable_inv w Hreach) as Hinv.
  apply (rtc_absent w1 w2 id); [by eapply server_inv_rtc|done| |done].
  destruct (rtc_extends w w1 Hsteps1) as (_ & _ & Htr).
  eapply elem_of_prefix; [|exact Htr].
  destruct Hinv as (_ & _ & _ & Hids & _). apply Hids. by eauto.
Qed.

Lemma example_deleted_step : rtc step example_pending example_deleted.
Proof. apply rtc_once, step_delete_job. Qed.

Lemma X9_deleted_id_never_returns_witness :
  reachable example_pending
  ∧ jobs example_pending !! "job-1" = Some example_record
  ∧ rtc step example_pending example_deleted
  ∧ jobs example_deleted !! "job-1" = None
  ∧ jobs (separate_audio example_disk_full example_file example_deleted).2
      !! "job-1" = None.
Proof.
  assert (jobs example_deleted !! "job-1" = None) as Hgone
    by (vm_compute; reflexivity).
  split; [exact example_pending_reachable|]. split; [reflexivity|].
  split; [exact example_deleted_step|]. split; [exact Hgone|].
  apply (X9_deleted_id_never_returns example_pending example_deleted _ "job-1"
           example_record example_pending_reachable eq_refl
           example_deleted_step Hgone).
  apply rtc_once, step_separate_audio. vm_compute. intros H.
  repeat (apply elem_of_cons in H as [H|H]; [discriminate H|]).
  by apply elem_of_nil in H.
Defined.

Lemma pending_dispatched_step w w' :
  server_inv w → pending_dispatched w → step_summary w w' →
  pending_dispatched w'.
Proof.
  intros (Hok & Hpend & Hnd & Hids & Htids & Hsep) Hdisp (_ & Hstep) id j Hj Hst.
  destruct Hstep as [(Hjobs & Hbg)
    |[(id0 & ip & od & Hfresh & Hnew & Hsep' & Hjobs & Hbg)
    |[(id0 & Hjobs & Hbg)
    |[(t & l1 & l2 & j0 & j0' & Hbg & Hbg' & Hj0 & Hjobs & Hend & _)
     |(t & l1 & l2 & Hbg & Hbg' & Hj0 & Hjobs & _)]]]];
    rewrite Hjobs in Hj.
  - rewrite Hbg. by eapply Hdisp.
  - rewrite Hbg. destruct (decide (id = id0)) as [->|Hne].
    + eexists. split; [apply elem_of_app; right; by left|done].
    + rewrite lookup_insert_ne in Hj by done.
      destruct (Hdisp id j Hj Hst) as (t & Ht & Hid).
      exists t. split; [apply elem_of_app; by left|done].
  - rewrite Hbg. apply lookup_delete_Some in Hj as [_ Hj]. by eapply Hdisp.
  - destruct (decide (id = task_job_id t)) as [->|Hne].
    + rewrite lookup_insert_eq in Hj. injection Hj as <-.
      destruct Hend as [(Hst' & _)|(Hst' & _)]; congruence.
    + rewrite lookup_insert_ne in Hj by done.
      destruct (Hdisp id j Hj Hst) as (t' & Ht' & Hid).
      exists t'. split; [|done]. rewrite Hbg'. rewrite Hbg in Ht'.
      apply elem_of_app in Ht' as [Ht'|Ht']; [apply elem_of_app; by left|].
      apply elem_of_cons in Ht' as [->|Ht']; [done|].
      apply elem_of_app. by right.
  - destruct (Hdisp id j Hj Hst) as (t' & Ht' & Hid).
    exists t'. split; [|done]. rewrite Hbg'. rewrite Hbg in Ht'.
    apply elem_of_app in Ht' as [Ht'|Ht']; [apply elem_of_app; by left|].
    apply elem_of_cons in Ht' as [->|Ht']; [congruence|].
    apply elem_of_app. by right.
Qed.

(** X10: in every state the server reaches, every pending record has a
    dispatched task waiting for it, no two dispatched tasks are for one id,
    and the record a dispatched task is for, when it is still in the store,
    is pending: a job gets one run of the worker, and none is left
    without. *)
Theorem X10_one_worker_per_job w :
  reachable w →
  pending_dispatched w
  ∧ NoDup (task_job_id <$> background_tasks w)
  ∧ (∀ t j, t ∈ background_tasks w → jobs w !! task_job_id t = Some j →
       status j = "pending").
Proof.
  intros Hreach. pose proof (reachable_inv w Hreach) as Hinv.
  split; [|by destruct Hinv as (_ & ? & ? & _)].
  destruct Hreach as (data_dir & f & env & Hsteps).
  assert (server_inv (boot data_dir f env) ∧ pending_dispatched (boot data_dir f env))
    as Hboot.
  { split; [apply server_inv_boot|]. intros id j Hj.
    rewrite (proj1 (boot_empty data_dir f env)) in Hj. by rewrite lookup_empty in Hj. }
  clear Hinv. revert Hboot.
  induction Hsteps as [|w1 w2 w3 Hstep _ IH]; intros [Hinv Hdisp]; [done|].
  pose proof (step_summarized _ _ Hstep) as Hsum. apply IH. split.
  - by eapply server_inv_step.
  - by eapply pending_dispatched_step.
Qed.

Lemma X10_one_worker_per_job_witness :
  reachable example_pending
  ∧ ∃ t, t ∈ background_tasks example_pending ∧ task_job_id t = "job-1".
Proof.
  split; [exact example_pending_reachable|].
  exact (proj1 (X10_one_worker_per_job example_pending example_pending_reachable)
           "job-1" example_record eq_refl eq_refl).
Defined.

Lemma separate_audio_jobs env file w :
  jobs (separate_audio env file w).2 = jobs w
  ∨ jobs (separate_audio env file w).2
    = <[uuid4 env := mkJobStatus (uuid4 env) "pending" (Some 0.0%float) None None]>
        (jobs w).
Proof.
  rewrite separate_audio_unfold.
  destruct (separator w) as [sep|]; [|by left]. cbv zeta.
  set (ip := DATA_DIR w </> "input" </> (uuid4 env +:+ "_" +:+ filename file)).
  pose proof (staging_spec env file ip
                (set_fs (fs w) (log_event (EvUuid4 (uuid4 env)) w))) as Hst.
  unfold wp in Hst. destruct (try_except _ _ _) as [[[]|e] w2]; cbn [snd].
  - destruct Hst as (_ & Hjobs & _). right. world_simpl. by rewrite Hjobs.
  - destruct Hst as (_ & Hjobs & _). left. by rewrite Hjobs.
Qed.

Lemma delete_job_jobs env id w :
  jobs (delete_job env id w).2 = jobs w
  ∨ jobs (delete_job env id w).2 = delete id (jobs w).
Proof.
  rewrite delete_job_unfold.
  destruct (jobs w !! id); [|by left]. cbv zeta.
  destruct (exists_ _ _); [destruct (rmtree env _) as [[]|e]|];
    first [by left | by right].
Qed.

Lemma keyed_by_job_id_step w w' :
  step w w' → keyed_by_job_id w → keyed_by_job_id w'.
Proof.
  intros Hstep Hkey id j Hj. destruct Hstep.
  - destruct (separate_audio_jobs env file w) as [Hjobs|Hjobs];
      rewrite Hjobs in Hj; [by apply Hkey|].
    destruct (decide (id = uuid4 env)) as [->|Hne].
    + rewrite lookup_insert_eq in Hj. by injection Hj as <-.
    + rewrite lookup_insert_ne in Hj by done. by apply Hkey.
  - destruct (get_job_status_same job_id0 w) as (_ & _ & Hjobs & _).
    rewrite Hjobs in Hj. by apply Hkey.
  - destruct (download_stem_same job_id0 stem_name w) as (_ & _ & Hjobs & _).
    rewrite Hjobs in Hj. by apply Hkey.
  - destruct (delete_job_jobs env job_id0 w) as [Hjobs|Hjobs];
      rewrite Hjobs in Hj; [by apply Hkey|].
    apply lookup_delete_Some in Hj as [_ Hj]. by apply Hkey.
  - unfold run_task in Hj. set (w0 := set_background_tasks (l1 ++ l2) w) in *.
    destruct (jobs w !! task_job_id t) as [j0|] eqn:Hj0.
    + destruct (worker_summary env (task_job_id t) (task_input_path t)
                  (task_output_dir t) w0 j0 Hj0)
        as (w1 & j1 & Hrun & _ & Hjobs & Hid & _).
      rewrite Hrun in Hj. cbn [snd] in Hj. rewrite Hjobs in Hj.
      destruct (decide (id = task_job_id t)) as [->|Hne].
      * rewrite lookup_insert_eq in Hj. injection Hj as <-.
        rewrite Hid. by apply Hkey.
      * rewrite lookup_insert_ne in Hj by done. by apply Hkey.
    + rewrite (process_separation_unknown env _ _ _ w0 Hj0) in Hj.
      by apply Hkey.
  - by apply Hkey.
Qed.

(** X11: in every state the server reaches, every record is stored under its
    own [job_id]: Submit stores the record under the id it puts in it, and
    the worker never changes that field. *)
Theorem X11_records_keyed_by_job_id w id j :
  reachable w → jobs w !! id = Some j → job_id j = id.
Proof.
  intros (data_dir & f & env & Hsteps). revert id j.
  change (keyed_by_job_id w).
  assert (keyed_by_job_id (boot data_dir f env)) as Hboot.
  { intros id j Hj. rewrite (proj1 (boot_empty data_dir f env)) in Hj.
    by rewrite lookup_empty in Hj. }
  revert Hboot. induction Hsteps as [|w1 w2 w3 Hstep _ IH]; [done|].
  intros Hkey. apply IH. by eapply keyed_by_job_id_step.
Qed.

Lemma X11_records_keyed_by_job_id_witness :
  reachable example_completed
  ∧ jobs example_completed !! "job-1" = Some example_completed_record
  ∧ job_id example_completed_record = "job-1".
Proof.
  assert (jobs example_completed !! "job-1" = Some example_completed_record)
    as Hj by (vm_compute; reflexivity).
  split; [exact example_completed_reachable|]. split; [exact Hj|].
  exact (X11_records_keyed_by_job_id example_completed "job-1"
           example_completed_record example_completed_reachable Hj).
Defined.

(** * The paths of two jobs *)





(** * A whole job *)

Lemma separate_audio_success env file w sep content :
  let id := uuid4 env in
  let input_path := DATA_DIR w </> "input" </> (id +:+ "_" +:+ filename file) in
  let w' := (separate_audio env file w).2 in
  separator w = Some sep → read file = Ret content →
  open_wb env input_path = Ret tt → write env input_path content = Ret tt →
  jobs w' = <[id := mkJobStatus id "pending" (Some 0.0%float) None None]> (jobs w)
  ∧ fs w' = add_file input_path (fs w)
  ∧ DATA_DIR w' = DATA_DIR w ∧ separator w' = separator w.
Proof.
  intros id input_path w' Hsep Hread Hopen Hwrite. unfold w'.
  rewrite separate_audio_unfold, Hsep. cbv zeta. fold id input_path.
  unfold try_except, mbind, M_bind, bind, ext.
  rewrite Hread, Hopen, Hwrite. by world_simpl.
Qed.

(** X18: a whole job leaves nothing behind.  With [DATA_DIR] a normal
    path and an id, a file name and names of the model's sources without a
    slash, from a state where [DATA_DIR/output] is there, the id is new, the
    input file is not there and nothing is at or below the output directory
    of the job, a Submit that succeeds, the run of its task that ends
    "completed" and a DeleteJob whose removal of the tree succeeds give back
    the store, the files and the directories of the start. *)
Theorem X18_whole_job_leaves_nothing env wenv denv file w0 sep content w2 j2 :
  let id := uuid4 env in
  let ip := DATA_DIR w0 </> "input" </> (id +:+ "_" +:+ filename file) in
  let od := DATA_DIR w0 </> "output" </> id in
  let w1 := (separate_audio env file w0).2 in
  normal_path (DATA_DIR w0) → component id → slash_free (filename file) →
  DATA_DIR w0 </> "output" ∈ dirs (fs w0) →
  separator w0 = Some sep → read file = Ret content →
  open_wb env ip = Ret tt → write env ip content = Ret tt →
  jobs w0 !! id = None → ip ∉ files (fs w0) →
  (∀ p, p ∈ files (fs w0) ∨ p ∈ dirs (fs w0) → p ≠ od ∧ under od p = false) →
  (∀ n, n ∈ sources sep → slash_free n) →
  run_task wenv (mkTask id ip od)
    (set_background_tasks (background_tasks w0 ++ []) w1) = (Ret tt, w2) →
  jobs w2 !! id = Some j2 → status j2 = "completed" →
  rmtree denv od = Ret tt →
  ∃ w3, delete_job denv id w2 = (Ret (JobDeleted "deleted" id), w3)
    ∧ jobs w3 = jobs w0
    ∧ files (fs w3) = files (fs w0) ∧ dirs (fs w3) = dirs (fs w0)
    ∧ background_tasks w3 = background_tasks w0.
Proof.
  intros id ip od w1 _ _ _ _ Hsep Hread Hopen Hwrite Hnew Hip Hclean Hrel Hrun
    Hj2 Hst Hrm.
  destruct (separate_audio_success env file w0 sep content Hsep Hread Hopen Hwrite)
    as (Hjobs1 & Hfs1 & Hd1 & Hs1).
  fold id ip w1 in Hjobs1, Hfs1, Hd1, Hs1.
  set (w1' := set_background_tasks (background_tasks w0 ++ []) w1) in *.
  assert (jobs w1' !! id
          = Some (mkJobStatus id "pending" (Some 0.0%float) None None)) as Hj1.
  { unfold w1'. cbn [jobs set_background_tasks]. rewrite Hjobs1.
    apply lookup_insert_eq. }
  unfold run_task in Hrun. cbn [task_job_id task_input_path task_output_dir] in Hrun.
  destruct (completed_run wenv id ip od w1' _ w2 j2 Hj1 Hrun Hj2 Hst)
    as ((Hd2 & _ & Hb2) & sep' & Hsep' & Hjobs2 & Hfiles2 & Hdirs2 & _).
  assert (sep' = sep) as ->.
  { unfold w1' in Hsep'. cbn [separator set_background_tasks] in Hsep'.
    rewrite Hs1, Hsep in Hsep'. by injection Hsep'. }
  cbv zeta in Hjobs2.
  unfold w1' in Hd2, Hb2, Hjobs2, Hfiles2, Hdirs2.
  cbn [DATA_DIR background_tasks jobs fs set_background_tasks] in Hd2, Hb2,
    Hjobs2, Hfiles2, Hdirs2.
  rewrite Hd1 in Hd2. rewrite Hjobs1, insert_insert_eq in Hjobs2.
  rewrite Hfs1 in Hfiles2, Hdirs2. cbn [add_file files dirs] in Hfiles2, Hdirs2.
  assert (exists_ od (fs w2) = true) as Hex.
  { apply bool_decide_eq_true. right. rewrite Hdirs2. set_solver. }
  rewrite delete_job_unfold, Hj2. cbv zeta. rewrite Hd2. fold od.
  rewrite Hex, Hrm. eexists. split; [reflexivity|]. world_simpl.
  split_and!.
  - rewrite Hjobs2, delete_insert_eq. by apply delete_id.
  - unfold remove_tree. cbn [files]. rewrite Hfiles2.
    apply set_eq. intros p. rewrite elem_of_filter, elem_of_difference,
      !elem_of_union, elem_of_singleton, elem_of_list_to_set, list_elem_of_fmap.
    split.
    + intros (Hout & [[Hp|Hp]|(n & -> & Hn)] & Hne); [done|done|].
      unfold stem_file in Hout.
      rewrite under_join in Hout; [done|].
      by apply stem_name_relative, slash_free_relative, Hrel.
    + intros Hp. split; [apply Hclean; by left|].
      split; [left; by right|]. by intros ->.
  - unfold remove_tree. cbn [dirs]. rewrite Hdirs2.
    apply set_eq. intros p. rewrite elem_of_filter, elem_of_difference,
      elem_of_union, elem_of_singleton.
    split.
    + by intros (_ & [Hp|Hp] & Hne).
    + intros Hp. destruct (Hclean p (or_intror Hp)) as [Hne Hout].
      split; [done|]. split; [by right|done].
  - rewrite Hb2. apply app_nil_r.
Qed.

Lemma example_boot_clean p :
  p ∈ files (fs example_boot) ∨ p ∈ dirs (fs example_boot) →
  p ≠ "/app/data/output/job-1" ∧ under "/app/data/output/job-1" p = false.
Proof.
  change (files (fs example_boot)) with (∅ : gset string).
  change (dirs (fs example_boot))
    with ({["/app/data/output"]} ∪ ({["/app/data/input"]}
            ∪ ({["/app/data"]} ∪ ∅)) : gset string).
  rewrite !elem_of_union, !elem_of_singleton, !elem_of_empty.
  intros [[]|[->|[->|[->|[]]]]]; by split.
Qed.

Lemma example_output_root :
  DATA_DIR example_boot </> "output" ∈ dirs (fs example_boot).
Proof. apply (bool_decide_unpack _). vm_compute. exact I. Qed.

Lemma X18_whole_job_leaves_nothing_witness :
  jobs example_boot !! "job-1" = None
  ∧ jobs example_completed !! "job-1" = Some example_completed_record
  ∧ ∃ w3, delete_job example_rmtree "job-1" example_completed
          = (Ret (JobDeleted "deleted" "job-1"), w3)
        ∧ jobs w3 = jobs example_boot
        ∧ files (fs w3) = files (fs example_boot)
        ∧ dirs (fs w3) = dirs (fs example_boot).
Proof.
  assert (jobs example_completed !! "job-1" = Some example_completed_record)
    as Hj by (vm_compute; reflexivity).
  assert (run_task example_worker
            (mkTask "job-1" "/app/data/input/job-1_song.wav"
               "/app/data/output/job-1")
            (set_background_tasks (background_tasks example_boot ++ [])
               (separate_audio example_submit example_file example_boot).2)
          = (Ret tt, example_completed)) as Hrun by (vm_compute; reflexivity).
  split; [reflexivity|]. split; [exact Hj|].
  destruct (X18_whole_job_leaves_nothing example_submit example_worker
              example_rmtree example_file example_boot example_model []
              example_completed example_completed_record
              example_data_dir_normal I I example_output_root
              eq_refl eq_refl eq_refl eq_refl eq_refl
              (not_elem_of_empty (C:=gset string) _)
              example_boot_clean example_model_slash_free Hrun Hj eq_refl eq_refl)
    as (w3 & Hdel & Hjobs & Hfiles & Hdirs & _).
  exists w3. split; [exact Hdel|]. split; [exact Hjobs|].
  split; [exact Hfiles|exact Hdirs].
Defined.

Lemma X14_ensure_stereo_idempotent_witness :
  ensure_stereo (ensure_stereo [[0.5%float]]) = ensure_stereo [[0.5%float]]
  ∧ ([0.5%float] ∈ ensure_stereo [[0.5%float]] →
     [0.5%float] ∈ take 2 [[0.5%float]]).
Proof.
  destruct (X14_ensure_stereo_idempotent [[0.5%float]]) as [Hidem Hfrom].
  split; [exact Hidem|apply Hfrom].
Defined.
